(** * The frame-pair classification pipeline of [app/server/pipeline]

    A shallow embedding of [app/server/pipeline/__init__.py]: the solid-frame
    detector, the scene content classifier, the SIFT pattern matcher, the
    frame-pair evaluator, the video pair walker and the output archiver,
    together with the properties the specification states about them.

    Conventions of the embedding.
    - A numpy image is an [ndarray]: a two-dimensional array of intensities
      or a three-dimensional array of BGR pixels.  Python's [None] is the
      [None] of [option].
    - Python floats are exact rationals ([Q]); texts are [string]s, read as
      sequences of code points below 256.
    - Exceptions are values of [exn]; a computation that can raise returns a
      [result].  Code that touches the disk or reads a global name runs in
      the monad [M] over a [world].
    - The module imports [ollama], [cv2], [numpy], [re], [os], [zipfile],
      [io], [shutil], [time] and [logging], and nothing else: the name [Path]
      it uses is bound nowhere, and reading it raises [NameError].  What
      follows a use of [Path] is transcribed all the same, with the meaning
      [pathlib.Path] would give it.
    - A path is the list of its components, relative to the working
      directory; the disk maps paths to directories and files.
    - OpenCV, the SIFT matcher and the inference client are the fields of the
      class [Backend]. *)

From Stdlib Require Import ZArith QArith String Ascii List Lia.
From stdpp Require Import base option list gmap strings fin_maps sorting pretty.

Local Open Scope string_scope.
Local Open Scope Z_scope.
Local Open Scope list_scope.

(** ** Exceptions and results *)

Abbreviation path := (list string).

(** The exceptions met in the module; each is an [Exception] of Python.
    [IOError] is what the module raises itself; the four that carry a path
    are the failures of the disk. *)
Inductive exn :=
  | cv2_error (msg : string)
  | NameError (msg : string)
  | IOError (msg : string)
  | FileExistsError (p : path)
  | FileNotFoundError (p : path)
  | NotADirectoryError (p : path)
  | IsADirectoryError (p : path)
  | Exception (msg : string).

Inductive result (A : Type) :=
  | Ok (a : A)
  | Raise (e : exn).
Arguments Ok {A} a.
Arguments Raise {A} e.

(** ** Images *)

Definition pixel : Type := (Z * Z * Z).

Inductive ndarray :=
  | Gray (rows : list (list Z))
  | Color (rows : list (list pixel)).

(** [None] is Python's [None]. *)
Definition image := option ndarray.

(** [len(a.shape)] *)
Definition ndim (a : ndarray) : nat :=
  match a with Gray _ => 2%nat | Color _ => 3%nat end.

(** The intensities of a single-channel array, row after row. *)
Definition intensities (a : ndarray) : list Z :=
  match a with Gray rows => concat rows | Color _ => [] end.

(** Number of pixels (height times width). *)
Definition pixel_count (a : ndarray) : nat :=
  match a with
  | Gray rows => length (concat rows)
  | Color rows => length (concat rows)
  end.

(** ** The disk, the call trace and the monad of effects *)

#[warnings="-register-all"] Inductive file :=
  | ImageFile (img : ndarray)
  | TextFile (text : string)
  | VideoFile (frames : list ndarray)
  | ZipFile (entries : list (path * file)).

(** What a path leads to. *)
Inductive node :=
  | Directory
  | Regular (f : file).

Definition filesystem := gmap path node.

(** The calls the trace keeps: the three stages of the evaluator, each with
    the frame it is run on, the call of [sort_into_folders] with the folder
    and the two file names it is given, and the
    [removed_images_log_data.append] of the walker. *)
Inductive stage_call :=
  | SolidColorCheck (frame : image)
  | ObjectDetection (frame : image)
  | PatternMatching (frame : image)
  | SortIntoFolders (name_folder raw_image_name realsense_image_name : string)
  | LogAppend (file_name reason : string).

(** The disk, and the calls made so far (oldest first). *)
Record world := { fs : filesystem; calls : list stage_call }.

Definition M (A : Type) : Type := world → result A * world.

#[global] Instance M_ret : MRet M := λ A a w, (Ok a, w).
#[global] Instance M_bind : MBind M := λ A B f m w,
  match m w with
  | (Ok a, w') => f a w'
  | (Raise e, w') => (Raise e, w')
  end.

Definition raise {A} (e : exn) : M A := λ w, (Raise e, w).
Definition lift {A} (r : result A) : M A := λ w, (r, w).
Definition get_fs : M filesystem := λ w, (Ok (fs w), w).
Definition modify_fs (f : filesystem → filesystem) : M unit :=
  λ w, (Ok tt, {| fs := f (fs w); calls := calls w |}).
Definition record_call (c : stage_call) : M unit :=
  λ w, (Ok tt, {| fs := fs w; calls := calls w ++ [c] |}).

(** [try: m / except Exception as e: handler e] *)
Definition try_except {A} (m : M A) (handler : exn → M A) : M A :=
  λ w,
    match m w with
    | (Ok a, w') => (Ok a, w')
    | (Raise e, w') => handler e w'
    end.

(** [for x in l: f x], collecting the values *)
Fixpoint for_each {A C} (f : A → M C) (l : list A) : M (list C) :=
  match l with
  | [] => mret []
  | a :: l =>
      c ← f a;
      cs ← for_each f l;
      mret (c :: cs)
  end.

(** *** Global names *)

(** The names the module binds at its top level: its imports, [logger] and
    its functions. *)
Definition module_globals : list string :=
  ["ollama"; "cv2"; "np"; "re"; "os"; "zipfile"; "io"; "shutil"; "time";
   "logging"; "logger";
   "is_mostly_black_or_white"; "modelObjectDetection"; "patternThresholding";
   "sort_into_folders"; "create_text_file_with_removed_images";
   "create_zip_from_directory"; "load_and_process_frame_pair";
   "process_video_frames"].

(** Reading a global name that is no builtin: [NameError] when the module
    does not bind it. *)
Definition global_name (name : string) : M unit :=
  if bool_decide (name ∈ module_globals) then mret ()
  else raise (NameError ("name '" +:+ name +:+ "' is not defined")).

(** *** Paths *)

(** The pieces of a text between its separators. *)
Fixpoint components (s : string) : list string :=
  match s with
  | EmptyString => [EmptyString]
  | String c s' =>
      if Ascii.eqb c "/"%char then EmptyString :: components s'
      else
        match components s' with
        | first :: rest => String c first :: rest
        | [] => [String c EmptyString]
        end
  end.

(** [PurePosixPath(s).parts]: empty pieces and [.] are dropped, a leading
    separator is the root. *)
Definition parts (s : string) : path :=
  (if String.prefix "/" s then ["/"] else [])
  ++ filter (λ c, c ≠ EmptyString ∧ c ≠ ".") (components s).

(** [os.PathLike]: a text or a path. *)
Class PathLike (A : Type) := parts_of : A → path.
#[global] Instance PathLike_str : PathLike string := parts.
#[global] Instance PathLike_path : PathLike path := λ p, p.

(** [Path(a)]: the name [Path] is read first. *)
Definition Path {A} `{PathLike A} (a : A) : M path :=
  global_name "Path";;
  mret (parts_of a).

(** [p / s] *)
Definition joinpath (p : path) (s : string) : path :=
  if String.prefix "/" s then parts s else p ++ parts s.

(** [str(p)] *)
Definition str_of_path (p : path) : string :=
  match p with
  | [] => "."
  | "/" :: rest => "/" +:+ String.concat "/" rest
  | _ => String.concat "/" p
  end.

(** [p.name] *)
Definition name_of (p : path) : string := List.last p EmptyString.

(** [p.parent] *)
Definition parent (p : path) : path := removelast p.

(** *** The disk *)

(** What is at [p]: the working directory and the root are directories. *)
Definition node_at (p : path) (d : filesystem) : option node :=
  if bool_decide (p = [] ∨ p = ["/"]) then Some Directory else d !! p.

(** [p.exists()] *)
Definition path_exists (p : path) (d : filesystem) : bool :=
  match node_at p d with Some _ => true | None => false end.

(** The failure of creating an entry at [p], if any: the parent of [p] has
    to be a directory. *)
Definition in_directory (p : path) (d : filesystem) : option exn :=
  match node_at (parent p) d with
  | Some Directory => None
  | Some (Regular _) => Some (NotADirectoryError p)
  | None => Some (FileNotFoundError p)
  end.

(** [p.mkdir(exist_ok=True)] *)
Definition mkdir (p : path) : M unit :=
  d ← get_fs;
  match node_at p d with
  | Some Directory => mret ()
  | Some (Regular _) => raise (FileExistsError p)
  | None =>
      match in_directory p d with
      | Some e => raise e
      | None => modify_fs (<[ p := Directory ]>)
      end
  end.

(** The directory [p] and the directories above it, the topmost first. *)
Definition with_parents (p : path) : list path :=
  map (λ n, take n p) (seq 1 (length p)).

(** [p.mkdir(parents=True, exist_ok=True)] *)
Definition mkdir_parents (p : path) : M unit :=
  for_each mkdir (with_parents p);;
  mret ().

(** [shutil.rmtree(p)]: [p] and everything below it goes. *)
Definition rmtree (p : path) : M unit :=
  d ← get_fs;
  match node_at p d with
  | Some Directory =>
      modify_fs (filter (λ qn, ¬ p `prefix_of` qn.1))
  | Some (Regular _) => raise (NotADirectoryError p)
  | None => raise (FileNotFoundError p)
  end.

(** [open(p, "w")], the writes and the close: the file at [p] is [f]. *)
Definition write_file (p : path) (f : file) : M unit :=
  d ← get_fs;
  match node_at p d with
  | Some Directory => raise (IsADirectoryError p)
  | _ =>
      match in_directory p d with
      | Some e => raise e
      | None => modify_fs (<[ p := Regular f ]>)
      end
  end.

(** The name of [q] when [q] is an entry of the directory [p]. *)
Definition entry_name (p q : path) : option string :=
  match drop (length p) q with
  | [name] => if decide (take (length p) q = p) then Some name else None
  | _ => None
  end.

(** [os.listdir(p)] *)
Definition listdir (p : path) : M (list string) :=
  d ← get_fs;
  match node_at p d with
  | Some Directory =>
      mret (elements (set_omap (C:=gset path) (D:=gset string)
                        (entry_name p) (dom d)))
  | Some (Regular _) => raise (NotADirectoryError p)
  | None => raise (FileNotFoundError p)
  end.

(** The files [os.walk(p)] meets, each with its path; nothing when [p] is
    no directory. *)
Definition walk_files (p : path) (d : filesystem) : list (path * file) :=
  match node_at p d with
  | Some Directory =>
      omap (λ qn : path * node,
              match qn.2 with
              | Regular f =>
                  if decide (p `prefix_of` qn.1) then Some (qn.1, f) else None
              | Directory => None
              end)
           (map_to_list d)
  | _ => []
  end.

(** [cv2.VideoCapture]: the frames not yet read and the number read. *)
Record VideoCapture := {
  isOpened : bool;
  stream : list ndarray;
  position : nat
}.

(** [cv2.VideoCapture(s)] *)
Definition VideoCapture_open (s : string) (d : filesystem) : VideoCapture :=
  match d !! parts s with
  | Some (Regular (VideoFile frames)) =>
      {| isOpened := true; stream := frames; position := 0 |}
  | _ => {| isOpened := false; stream := []; position := 0 |}
  end.

(** [cap.read()] *)
Definition read (cap : VideoCapture) : bool * image * VideoCapture :=
  match stream cap with
  | [] => (false, None, cap)
  | frame :: rest =>
      (true, Some frame,
       {| isOpened := isOpened cap; stream := rest;
          position := S (position cap) |})
  end.

(** ** The external capabilities *)

Record DMatch := { queryIdx : nat; trainIdx : nat; distance : Q }.

Class Backend := {
  (** the grey level [cv2.cvtColor(_, COLOR_BGR2GRAY)] gives one BGR pixel *)
  bgr2gray : pixel -> Z;
  (** [cv2.imencode('.jpg', frame)[1].tobytes()] *)
  imencode_jpg : ndarray -> result (list Z);
  (** [ollama.chat(model="llava:34b", ...)['message']['content']] for a
      prompt and an encoded image *)
  ollama_chat : string -> list Z -> result string;
  keypoint : Type;
  descriptors : Type;
  (** [sift.detectAndCompute(gray, None)]; a failure is a [cv2.error] and
      carries its message *)
  sift_detectAndCompute :
    ndarray -> string + (option (list keypoint) * option descriptors);
  (** [bf.match(query, train)] with [NORM_L2] and [crossCheck=True] *)
  bf_match : descriptors -> descriptors -> string + list DMatch
}.

Section Pipeline.
Context {B : Backend}.

(** [cv2.cvtColor(a, cv2.COLOR_BGR2GRAY)].  OpenCV asserts [!_src.empty()]
    and raises [cv2.error] on an array without pixels; a single-channel
    source has the wrong number of channels. *)
Definition cvtColor_BGR2GRAY (a : ndarray) : result ndarray :=
  match a with
  | Color rows =>
      if decide (concat rows = [])
      then Raise (cv2_error "(-215:Assertion failed) !_src.empty() in function 'cvtColor'")
      else Ok (Gray (map (map bgr2gray) rows))
  | Gray _ =>
      Raise (cv2_error "Invalid number of channels in input image")
  end.

(** ** Solid-frame detector *)

(** [np.sum(gray <= v)] and [np.sum(gray >= v)] *)
Definition count_le (v : Z) (l : list Z) : nat :=
  length (filter (λ x, x ≤ v) l).
Definition count_ge (v : Z) (l : list Z) : nat :=
  length (filter (λ x, v ≤ x) l).

(** [count / total], for [total] not zero *)
Definition fraction (count total : nat) : Q :=
  Z.of_nat count # Pos.of_nat total.

Definition is_mostly_black_or_white (image_cv : image)
    (black_threshold_val white_threshold_val : Z) (percentage_threshold : Q)
    : result bool :=
  match image_cv with
  | None => Ok false
  | Some a =>
      match (if decide (ndim a = 3%nat) then cvtColor_BGR2GRAY a else Ok a) with
      | Raise e => Raise e
      | Ok gray_image =>
          let total_pixels := pixel_count gray_image in
          if decide (total_pixels = 0%nat) then Ok false
          else
            let black_pixels := count_le black_threshold_val (intensities gray_image) in
            let white_pixels := count_ge white_threshold_val (intensities gray_image) in
            let black_percentage := fraction black_pixels total_pixels in
            let white_percentage := fraction white_pixels total_pixels in
            Ok (Qle_bool percentage_threshold black_percentage
                || Qle_bool percentage_threshold white_percentage)
      end
  end.

(** ** Scene content classifier *)

(** ASCII lower case, as [re.IGNORECASE] folds the letters of the pattern
    and of the text. *)
Definition lower_ascii (c : ascii) : ascii :=
  let n := nat_of_ascii c in
  if decide (65 ≤ n ≤ 90)%nat then ascii_of_nat (n + 32) else c.

Fixpoint lower (s : string) : string :=
  match s with
  | EmptyString => EmptyString
  | String c s' => String (lower_ascii c) (lower s')
  end.

(** [pat] occurs somewhere in [s] *)
Fixpoint occurs (pat s : string) : bool :=
  String.prefix pat s ||
  match s with
  | EmptyString => false
  | String _ s' => occurs pat s'
  end.

(** [re.search(pat, s, re.IGNORECASE)] for a pattern of plain letters *)
Definition re_search_ignorecase (pat s : string) : bool :=
  occurs (lower pat) (lower s).

Definition modelObjectDetection (frame_cv : image) (model_prompt_content : string)
    : bool * string :=
  match frame_cv with
  | None => (true, "Error: Input frame was None.")
  | Some frame =>
      let objects_detected := true in
      let model_response_content := "Error in model processing." in
      (* try: *)
      match imencode_jpg frame with
      | Raise _ => (objects_detected, model_response_content)
      | Ok image_bytes =>
          match ollama_chat model_prompt_content image_bytes with
          | Raise _ => (objects_detected, model_response_content)
          | Ok content =>
              let model_response_content := content in
              if re_search_ignorecase "False" model_response_content
              then (false, model_response_content)
              else (objects_detected, model_response_content)
          end
      end
  end.

(** ** Pattern matcher *)

(** The test [descriptors is None or keypoints is None or
    len(keypoints) == 0] fails: the descriptors that are then used. *)
Definition usable_descriptors
    (r : option (list keypoint) * option descriptors) : option descriptors :=
  match r with
  | (Some kps, Some d) => if decide (length kps = 0%nat) then None else Some d
  | _ => None
  end.

Definition by_distance (a b : DMatch) : Prop := (distance a <= distance b)%Q.

#[global] Instance by_distance_dec : RelDecision by_distance.
Proof.
  intros a b. unfold by_distance.
  destruct (Qlt_le_dec (distance b) (distance a)) as [H|H].
  - right. intros H'. exact (Qlt_not_le _ _ H H').
  - left. exact H.
Defined.

Definition below (threshold : Q) (m : DMatch) : Prop := (distance m < threshold)%Q.

#[global] Instance below_dec threshold m : Decision (below threshold m).
Proof.
  unfold below.
  destruct (Qlt_le_dec (distance m) threshold) as [H|H].
  - left. exact H.
  - right. intros H'. exact (Qlt_not_le _ _ H' H).
Defined.

(** [sorted(matches, key=lambda x: x.distance)], then
    [[m for m in matches if m.distance < threshold_match_val]] *)
Definition good_matches (threshold_match_val : Q) (matches : list DMatch)
    : list DMatch :=
  filter (below threshold_match_val) (merge_sort by_distance matches).

(** The body of [for pattern_img_gray, pattern_name in
    loaded_pattern_images_data], carrying [best_match_name] and
    [max_good_matches]. *)
Fixpoint scan_patterns (test_descriptors : descriptors) (threshold_match_val : Q)
    (loaded_pattern_images_data : list (image * string))
    (best_match_name : option string) (max_good_matches : nat)
    : option string * nat :=
  match loaded_pattern_images_data with
  | [] => (best_match_name, max_good_matches)
  | (pattern_img_gray, pattern_name) :: rest =>
      let continue :=
        scan_patterns test_descriptors threshold_match_val rest
          best_match_name max_good_matches in
      match pattern_img_gray with
      | None => continue
      | Some pattern =>
          match sift_detectAndCompute pattern with
          | inl _ => continue
          | inr found =>
              match usable_descriptors found with
              | None => continue
              | Some pattern_descriptors =>
                  match bf_match test_descriptors pattern_descriptors with
                  | inl _ => continue
                  | inr matches =>
                      let num_good_matches :=
                        length (good_matches threshold_match_val matches) in
                      if decide (max_good_matches < num_good_matches)%nat
                      then scan_patterns test_descriptors threshold_match_val rest
                             (Some pattern_name) num_good_matches
                      else continue
                  end
              end
          end
      end
  end.

Definition patternThresholding (test_image_cv : image)
    (loaded_pattern_images_data : list (image * string))
    (threshold_match_val : Q) : result (option string) :=
  match test_image_cv with
  | None => Ok None
  | Some a =>
      match (if decide (ndim a = 3%nat) then cvtColor_BGR2GRAY a else Ok a) with
      | Raise e => Raise e
      | Ok test_img_gray =>
          match sift_detectAndCompute test_img_gray with
          | inl _ => Ok None
          | inr found =>
              match usable_descriptors found with
              | None => Ok None
              | Some test_descriptors =>
                  let '(best_match_name, max_good_matches) :=
                    scan_patterns test_descriptors threshold_match_val
                      loaded_pattern_images_data None 0%nat in
                  Ok (if decide (0 < max_good_matches)%nat
                      then best_match_name
                      else Some "No_Pattern_Match")
              end
          end
      end
  end.

(** ** Output archiver *)

(** [cv2.imwrite(str(p), img)]: OpenCV refuses an image without pixels, and
    answers [False] when the file cannot be written. *)
Definition imwrite (p : path) (img : image) : M bool :=
  match img with
  | Some a =>
      if decide (pixel_count a = 0%nat)
      then raise (cv2_error "(-215:Assertion failed) !_img.empty() in function 'imwrite'")
      else try_except (write_file p (ImageFile a);; mret true)
                      (λ _, mret false)
  | None =>
      raise (cv2_error "(-215:Assertion failed) !_img.empty() in function 'imwrite'")
  end.

Definition sort_into_folders (output_base_dir : path) (name_folder : string)
    (raw_image_cv : image) (raw_image_name : string)
    (realsense_image_cv : image) (realsense_image_name : string) : M unit :=
  base ← Path output_base_dir;
  let target_dir_raw := joinpath (joinpath base name_folder) "raw" in
  base ← Path output_base_dir;
  let target_dir_realsense := joinpath (joinpath base name_folder) "realsense" in
  mkdir_parents target_dir_raw;;
  mkdir_parents target_dir_realsense;;
  imwrite (joinpath target_dir_raw raw_image_name) raw_image_cv;;
  imwrite (joinpath target_dir_realsense realsense_image_name) realsense_image_cv;;
  mret ().

Definition newline : string := String (ascii_of_nat 10) EmptyString.

(** One line of the log: [f"Frame/Image name: {file_name}, Reason: {reason}\n"] *)
Definition log_line (entry : string * string) : string :=
  "Frame/Image name: " +:+ entry.1 +:+ ", Reason: " +:+ entry.2 +:+ newline.

Definition log_text (removed_images_log : list (string * string)) : string :=
  "Log of images removed or not fitting criteria:" +:+ newline
  +:+ String.concat EmptyString (map log_line removed_images_log).

Definition create_text_file_with_removed_images (output_base_dir : path)
    (removed_images_log : list (string * string)) : M unit :=
  base ← Path output_base_dir;
  let log_path := joinpath base "removed_images_log.txt" in
  write_file log_path (TextFile (log_text removed_images_log)).

Definition create_zip_from_directory (directory_path_str : string)
    (job_id : string) : M string :=
  dir_path ← Path directory_path_str;
  let zip_filename := "Results_" +:+ job_id +:+ ".zip" in
  downloads ← Path "downloads";
  let zip_path := joinpath downloads zip_filename in
  downloads ← Path "downloads";
  mkdir downloads;;
  (* with zipfile.ZipFile(zip_path, 'w', ...) as zipf: *)
  write_file zip_path (ZipFile []);;
  d ← get_fs;
  entries ←
    for_each (λ found : path * file,
                (* file_path = Path(root) / file *)
                root ← Path (parent found.1);
                let file_path := joinpath root (name_of found.1) in
                let arcname := drop (length dir_path) file_path in
                mret (arcname, found.2))
             (walk_files dir_path d);
  write_file zip_path (ZipFile entries);;
  mret zip_filename.

(** ** Frame-pair evaluator *)

(** Python's truth value of a string or [None] *)
Definition truthy (s : option string) : bool :=
  match s with
  | Some s => negb (bool_decide (s = EmptyString))
  | None => false
  end.

Definition load_and_process_frame_pair
    (raw_frame_cv : image) (raw_frame_name : string)
    (realsense_frame_cv : image) (realsense_frame_name : string)
    (loaded_pattern_images_data : list (image * string))
    (output_base_dir_for_accepted : path)
    (run_solid_color_check run_object_detection run_pattern_matching : bool)
    (bw_filter_params : Z * Z * Q)
    (obj_detect_prompt : string)
    (pattern_match_sift_distance_thresh : Q) : M (bool * string) :=
  let '(black_thresh, white_thresh, percentage_thresh) := bw_filter_params in
  (* 1. Solid Color Check (on RealSense frame) *)
  solid ←
    (if run_solid_color_check then
       record_call (SolidColorCheck realsense_frame_cv);;
       lift (is_mostly_black_or_white realsense_frame_cv
               black_thresh white_thresh percentage_thresh)
     else mret false);
  if (solid : bool) then mret (false, "Rejected: Mostly black or white")
  else
    (* 2. Model Object Detection (on Raw frame) *)
    detection ←
      (if run_object_detection then
         record_call (ObjectDetection raw_frame_cv);;
         mret (modelObjectDetection raw_frame_cv obj_detect_prompt)
       else mret (false, EmptyString));
    let '(objects_detected, model_reason) := (detection : bool * string) in
    if objects_detected then
      mret (false, "Rejected: Man-made objects detected ("
                   +:+ substring 0 50 model_reason +:+ "...)")
    else
      (* 3. Pattern Matching (on RealSense frame) *)
      classification_name ←
        (if run_pattern_matching then
           match loaded_pattern_images_data with
           | [] => mret "No_Patterns_Available"
           | _ =>
               record_call (PatternMatching realsense_frame_cv);;
               best_match_name ←
                 lift (patternThresholding realsense_frame_cv
                         loaded_pattern_images_data
                         pattern_match_sift_distance_thresh);
               if truthy best_match_name
               then mret (default EmptyString best_match_name)
               else mret "No_Pattern_Match"
           end
         else mret "Uncategorized");
      record_call (SortIntoFolders classification_name
                     raw_frame_name realsense_frame_name);;
      sort_into_folders output_base_dir_for_accepted classification_name
        raw_frame_cv raw_frame_name realsense_frame_cv realsense_frame_name;;
      mret (true, classification_name).

(** ** Video pair walker *)

(** [f"{n:05d}"] *)
Definition format_05d (n : nat) : string :=
  let digits := pretty n in
  String.concat EmptyString (replicate (5 - String.length digits) "0") +:+ digits.

Definition raw_frame_name_of (frame_count : nat) : string :=
  "raw_frame_" +:+ format_05d frame_count +:+ ".png".
Definition realsense_frame_name_of (frame_count : nat) : string :=
  "realsense_frame_" +:+ format_05d frame_count +:+ ".png".

(** The values of [thres_params]; an absent key is [None]. *)
Record thres_params := {
  Black_Threshold_BW : option Z;
  White_Threshold_BW : option Z;
  Solid_Color_Detection : option Q;
  Object_Detection_Prompt : option string;
  Pattern_Thresholding_Value : option Q
}.

(** [d.get(key, fallback)] of [pipeline_processes_config] *)
Definition config_get (d : gmap string bool) (key : string) (fallback : bool)
    : bool :=
  default fallback (d !! key).

(** The local variables of the [while True] loop when it is left. *)
Record loop_exit := {
  cap_raw : VideoCapture;
  cap_realsense : VideoCapture;
  frame_count : nat;
  processed_frame_count : nat;
  removed_images_log_data : list (string * string)
}.

(** The [while True] loop.  [raw_stream] and [raw_position] are the state of
    [cap_raw]: the match on [raw_stream] is [cap_raw.read()]. *)
Fixpoint frame_loop (raw_stream : list ndarray) (raw_position : nat)
    (cap_realsense : VideoCapture)
    (frame_count processed_frame_count : nat)
    (removed_images_log_data : list (string * string))
    (loaded_patterns : list (image * string)) (output_base_dir : path)
    (pipeline_processes_config : gmap string bool)
    (bw_params : Z * Z * Q) (obj_det_prompt : string) (sift_distance_thresh : Q)
    : M loop_exit :=
  let leave raw_stream raw_position cap_realsense :=
    mret {| cap_raw := {| isOpened := true; stream := raw_stream;
                          position := raw_position |};
            cap_realsense := cap_realsense;
            frame_count := frame_count;
            processed_frame_count := processed_frame_count;
            removed_images_log_data := removed_images_log_data |} in
  match raw_stream with
  | [] =>
      (* ret_raw is False; the realsense source is read all the same *)
      let '(_, _, cap_realsense) := read cap_realsense in
      leave [] raw_position cap_realsense
  | raw_frame :: raw_rest =>
      let '(ret_realsense, realsense_frame, cap_realsense) := read cap_realsense in
      if negb ret_realsense then leave raw_rest (S raw_position) cap_realsense
      else
        let raw_frame_name := raw_frame_name_of frame_count in
        let realsense_frame_name := realsense_frame_name_of frame_count in
        verdict ←
          load_and_process_frame_pair
            (Some raw_frame) raw_frame_name realsense_frame realsense_frame_name
            loaded_patterns output_base_dir
            (config_get pipeline_processes_config "Solid Color Detection" true)
            (config_get pipeline_processes_config "Model Object Detection" true)
            (config_get pipeline_processes_config "Pattern Thresholding" true)
            bw_params obj_det_prompt sift_distance_thresh;
        let '(accepted, reason_or_category) := (verdict : bool * string) in
        (if accepted then mret ()
         else record_call (LogAppend raw_frame_name reason_or_category));;
        frame_loop raw_rest (S raw_position) cap_realsense
          (S frame_count) (S processed_frame_count)
          (if accepted then removed_images_log_data
           else removed_images_log_data ++ [(raw_frame_name, reason_or_category)])
          loaded_patterns output_base_dir pipeline_processes_config
          bw_params obj_det_prompt sift_distance_thresh
  end.

(** ** Whole runs *)

(** [cv2.imread(s)]: three channels, whatever the file holds. *)
Definition imread (s : string) (d : filesystem) : image :=
  match d !! parts s with
  | Some (Regular (ImageFile (Color rows))) => Some (Color rows)
  | Some (Regular (ImageFile (Gray rows))) =>
      Some (Color (map (map (λ v, (v, v, v))) rows))
  | _ => None
  end.

(** The loop over [pattern_image_paths]: a path whose loading raises is
    passed over. *)
Fixpoint load_patterns (pattern_image_paths : list string)
    (loaded_patterns : list (image * string)) : M (list (image * string)) :=
  match pattern_image_paths with
  | [] => mret loaded_patterns
  | img_path_str :: rest =>
      loaded_patterns ←
        try_except
          (img_path ← Path img_path_str;
           d ← get_fs;
           match imread (str_of_path img_path) d with
           | Some pattern_cv_img =>
               pattern_cv_gray ← lift (cvtColor_BGR2GRAY pattern_cv_img);
               mret (loaded_patterns
                     ++ [(Some pattern_cv_gray, name_of img_path)])
           | None => mret loaded_patterns
           end)
          (λ _, mret loaded_patterns);
      load_patterns rest loaded_patterns
  end.

Definition process_video_frames (job_id : string)
    (path_to_raw_video path_to_realsense_video : string)
    (pattern_image_paths : list string)
    (thres : thres_params) (pipeline_processes_config : gmap string bool)
    : M (nat * option string) :=
  PIPELINE_OUTPUT_ROOT ← Path "pipeline_output";
  mkdir PIPELINE_OUTPUT_ROOT;;
  let output_base_dir :=
    joinpath (joinpath PIPELINE_OUTPUT_ROOT job_id) "Accepted_images" in
  d ← get_fs;
  (if path_exists output_base_dir d then rmtree output_base_dir else mret ());;
  mkdir_parents output_base_dir;;
  (* Load pattern images *)
  loaded_patterns ←
    (if config_get pipeline_processes_config "Pattern Thresholding" false
        && negb (bool_decide (pattern_image_paths = []))
     then load_patterns pattern_image_paths []
     else mret []);
  d ← get_fs;
  let cap_raw := VideoCapture_open path_to_raw_video d in
  let cap_realsense := VideoCapture_open path_to_realsense_video d in
  if negb (isOpened cap_raw) then
    raise (IOError ("Could not open raw video: " +:+ path_to_raw_video))
  else if negb (isOpened cap_realsense) then
    raise (IOError ("Could not open RealSense video: "
                    +:+ path_to_realsense_video))
  else
    let bw_params :=
      (default 30 (Black_Threshold_BW thres),
       default 225 (White_Threshold_BW thres),
       default (60 # 100) (Solid_Color_Detection thres)) in
    let obj_det_prompt := default "Analyze..." (Object_Detection_Prompt thres) in
    let sift_distance_thresh := default (200 # 1) (Pattern_Thresholding_Value thres) in
    exit ←
      frame_loop (stream cap_raw) (position cap_raw) cap_realsense 0 0 []
        loaded_patterns output_base_dir pipeline_processes_config
        bw_params obj_det_prompt sift_distance_thresh;
    create_text_file_with_removed_images output_base_dir
      (removed_images_log_data exit);;
    listing ← listdir output_base_dir;
    match listing with
    | _ :: _ =>
        zip_file_name ←
          create_zip_from_directory (str_of_path output_base_dir) job_id;
        mret (processed_frame_count exit, Some zip_file_name)
    | [] => mret (processed_frame_count exit, None)
    end.

(** ** Notions the stated properties are phrased in *)

(** The image has at least one pixel. *)
Definition has_pixels (a : ndarray) : Prop := pixel_count a ≠ 0%nat.

(** What feature extraction gives for the query image: [Ok None] when no
    descriptors can be used (no image, a SIFT failure, or nothing found). *)
Definition query_descriptors (test_image_cv : image)
    : result (option descriptors) :=
  match test_image_cv with
  | None => Ok None
  | Some a =>
      match (if decide (ndim a = 3%nat) then cvtColor_BGR2GRAY a else Ok a) with
      | Raise e => Raise e
      | Ok gray =>
          match sift_detectAndCompute gray with
          | inl _ => Ok None
          | inr found => Ok (usable_descriptors found)
          end
      end
  end.

(** The good-match count of one reference; [None] for a reference the scan
    skips (no image, no descriptors, or a failure of SIFT or of the
    matcher). *)
Definition good_match_count (test_descriptors : descriptors) (threshold : Q)
    (reference : image * string) : option nat :=
  match reference.1 with
  | None => None
  | Some pattern =>
      match sift_detectAndCompute pattern with
      | inl _ => None
      | inr found =>
          match usable_descriptors found with
          | None => None
          | Some pattern_descriptors =>
              match bf_match test_descriptors pattern_descriptors with
              | inl _ => None
              | inr matches => Some (length (good_matches threshold matches))
              end
          end
      end
  end.

(** The count of a reference, a skipped one counting for nothing. *)
Definition score (test_descriptors : descriptors) (threshold : Q)
    (reference : image * string) : nat :=
  default 0%nat (good_match_count test_descriptors threshold reference).

(** [name] labels the earliest reference of the list that attains the
    largest good-match count [c], and [c] is not zero. *)
Definition first_best (test_descriptors : descriptors) (threshold : Q)
    (references : list (image * string)) (name : string) (c : nat) : Prop :=
  ∃ before img after,
    references = before ++ (img, name) :: after ∧
    good_match_count test_descriptors threshold (img, name) = Some c ∧
    (0 < c)%nat ∧
    Forall (λ r, (score test_descriptors threshold r < c)%nat) before ∧
    Forall (λ r, (score test_descriptors threshold r ≤ c)%nat) after.

(** The outcome of stage 1: the solid-frame check on the realsense frame,
    when the stage is enabled. *)
Definition solid_stage (run_solid_color_check : bool)
    (realsense_frame_cv : image) (bw_filter_params : Z * Z * Q) : result bool :=
  if run_solid_color_check
  then is_mostly_black_or_white realsense_frame_cv
         bw_filter_params.1.1 bw_filter_params.1.2 bw_filter_params.2
  else Ok false.

(** The outcome of stage 2: the scene check on the raw frame, when the
    stage is enabled. *)
Definition scene_stage (run_object_detection : bool) (raw_frame_cv : image)
    (obj_detect_prompt : string) : bool * string :=
  if run_object_detection
  then modelObjectDetection raw_frame_cv obj_detect_prompt
  else (false, EmptyString).

(** The outcome of stage 3: the classification label. *)
Definition label_stage (run_pattern_matching : bool)
    (realsense_frame_cv : image)
    (loaded_pattern_images_data : list (image * string))
    (threshold : Q) : result string :=
  if run_pattern_matching then
    match loaded_pattern_images_data with
    | [] => Ok "No_Patterns_Available"
    | _ =>
        match patternThresholding realsense_frame_cv
                loaded_pattern_images_data threshold with
        | Raise e => Raise e
        | Ok best_match_name =>
            Ok (if truthy best_match_name then default EmptyString best_match_name
                else "No_Pattern_Match")
        end
    end
  else Ok "Uncategorized".

(** The stage invocations of one evaluation, in the fixed order, stopping
    at the first stage that rejects (or fails). *)
Definition stage_trace
    (run_solid_color_check run_object_detection run_pattern_matching : bool)
    (raw_frame_cv realsense_frame_cv : image)
    (loaded_pattern_images_data : list (image * string))
    (bw_filter_params : Z * Z * Q) (obj_detect_prompt : string)
    : list stage_call :=
  (if run_solid_color_check then [SolidColorCheck realsense_frame_cv] else [])
  ++ match solid_stage run_solid_color_check realsense_frame_cv bw_filter_params with
     | Ok false =>
         (if run_object_detection then [ObjectDetection raw_frame_cv] else [])
         ++ (if (scene_stage run_object_detection raw_frame_cv obj_detect_prompt).1
             then []
             else if run_pattern_matching
                     && negb (bool_decide (loaded_pattern_images_data = []))
                  then [PatternMatching realsense_frame_cv]
                  else [])
     | _ => []
     end.

(** The text of a rejection by the scene check. *)
Definition scene_rejection (model_reason : string) : string :=
  "Rejected: Man-made objects detected ("
  +:+ substring 0 50 model_reason +:+ "...)".

Definition add_calls (w : world) (l : list stage_call) : world :=
  {| fs := fs w; calls := calls w ++ l |}.

End Pipeline.

(** ** A backend for examples

    Grey level: the green channel.  Encoding: the blue channel, or the
    intensities.  The inference client fails on an image whose first byte is
    0, sees a fence when it is 1 and answers "FALSE" otherwise.  SIFT finds
    one feature per intensity that is not zero, described by that intensity;
    the matcher pairs the features of the same rank. *)
Definition example_backend : Backend := {|
  bgr2gray := λ '(b, g, r), g;
  imencode_jpg := λ a,
    match a with
    | Color rows => Ok (map (λ '(b, g, r), b) (concat rows))
    | Gray rows => Ok (concat rows)
    end;
  ollama_chat := λ prompt bytes,
    match bytes with
    | 0 :: _ => Raise (Exception "timed out")
    | 1 :: _ => Ok "True, there is a fence."
    | _ => Ok "I would say FALSE."
    end;
  keypoint := unit;
  descriptors := list Z;
  sift_detectAndCompute := λ a,
    let found := filter (λ x, x ≠ 0) (intensities a) in
    inr (Some (map (λ _, ()) found),
         match found with [] => None | _ => Some found end);
  bf_match := λ query train,
    inr (imap (λ i '(x, y),
                 {| queryIdx := i; trainIdx := i;
                    distance := inject_Z (Z.abs (x - y)) |})
              (zip query train))
|}.

(** Nothing on the disk, no call made yet. *)
Definition empty_world : world := {| fs := ∅; calls := [] |}.

(** Where a run of job [job_id] is to keep what it accepts, and its log. *)
Definition output_dir_of (job_id : string) : path :=
  joinpath (joinpath ["pipeline_output"] job_id) "Accepted_images".

Definition log_path_of (job_id : string) : path :=
  joinpath (output_dir_of job_id) "removed_images_log.txt".

(** A one-pixel white frame, as a decoder gives it. *)
Definition white_frame : ndarray := Color [[(255, 255, 255)]].

(** A disk with two one-pixel videos: the raw one has one white frame, the
    realsense one the same frame twice. *)
Definition example_disk : filesystem :=
  {[ ["uploads"] := Directory;
     ["uploads"; "raw.mp4"] := Regular (VideoFile [white_frame]);
     ["uploads"; "realsense.mp4"]
       := Regular (VideoFile [white_frame; white_frame]) ]}.

Definition example_world : world := {| fs := example_disk; calls := [] |}.

(** A disk with a raw video of 8 frames and a realsense video of 12. *)
Definition uneven_disk : filesystem :=
  {[ ["uploads"] := Directory;
     ["uploads"; "raw.mp4"] := Regular (VideoFile (replicate 8 white_frame));
     ["uploads"; "realsense.mp4"]
       := Regular (VideoFile (replicate 12 white_frame)) ]}.

Definition uneven_world : world := {| fs := uneven_disk; calls := [] |}.

Definition no_thresholds : thres_params :=
  {| Black_Threshold_BW := None; White_Threshold_BW := None;
     Solid_Color_Detection := None; Object_Detection_Prompt := None;
     Pattern_Thresholding_Value := None |}.

(** A disk on which job "J" already has an accepted pair and a log, next to
    the two videos of [example_disk]. *)
Definition earlier_run_disk : filesystem :=
  {[ ["pipeline_output"] := Directory;
     ["pipeline_output"; "J"] := Directory;
     ["pipeline_output"; "J"; "Accepted_images"] := Directory;
     ["pipeline_output"; "J"; "Accepted_images"; "removed_images_log.txt"]
       := Regular (TextFile "Log of an earlier run");
     ["pipeline_output"; "J"; "Accepted_images"; "Uncategorized"] := Directory;
     ["pipeline_output"; "J"; "Accepted_images"; "Uncategorized"; "raw"]
       := Directory;
     ["pipeline_output"; "J"; "Accepted_images"; "Uncategorized"; "raw";
      "raw_frame_00000.png"] := Regular (ImageFile (Color [[(90, 90, 90)]]));
     ["pipeline_output"; "J"; "Accepted_images"; "Uncategorized"; "realsense"]
       := Directory;
     ["pipeline_output"; "J"; "Accepted_images"; "Uncategorized"; "realsense";
      "realsense_frame_00000.png"]
       := Regular (ImageFile (Color [[(90, 90, 90)]]));
     ["uploads"] := Directory;
     ["uploads"; "raw.mp4"] := Regular (VideoFile [white_frame]);
     ["uploads"; "realsense.mp4"]
       := Regular (VideoFile [white_frame; white_frame]) ]}.

Definition earlier_run_world : world :=
  {| fs := earlier_run_disk; calls := [] |}.



(** The folder names the evaluator has of its own. *)
Definition own_labels : list string :=
  ["Uncategorized"; "No_Patterns_Available"; "No_Pattern_Match"].


Section RunNotions.
Context {B : Backend}.

(** The grey levels the detector counts: the intensities of a single-channel
    image, the converted pixels of a colour image. *)
Definition gray_levels (a : ndarray) : list Z :=
  match a with
  | Gray rows => concat rows
  | Color rows => map bgr2gray (concat rows)
  end.

End RunNotions.

(** * Properties *)

(** ** Solid-frame detector *)

Section SolidFrame.
Context {B : Backend}.

Lemma is_mostly_black_or_white_None b w p :
  is_mostly_black_or_white None b w p = Ok false.
Proof. reflexivity. Qed.

(** On a single-channel image with pixels the answer is the comparison of
    the two fractions with the cutoff. *)
Lemma is_mostly_black_or_white_gray rows b w p :
  concat rows ≠ [] →
  ∃ answer,
    is_mostly_black_or_white (Some (Gray rows)) b w p = Ok answer ∧
    (answer = true ↔
       (p <= fraction (count_le b (concat rows)) (length (concat rows)))%Q ∨
       (p <= fraction (count_ge w (concat rows)) (length (concat rows)))%Q).
Proof.
  intros Hne. unfold is_mostly_black_or_white. simpl.
  destruct (decide (length (concat rows) = 0%nat)) as [H0|_].
  { destruct (concat rows); [done|discriminate]. }
  eexists. split; [reflexivity|].
  rewrite orb_true_iff, !Qle_bool_iff. reflexivity.
Qed.

(** A colour image is judged on its grey levels. *)
Lemma is_mostly_black_or_white_color rows b w p :
  concat rows ≠ [] →
  is_mostly_black_or_white (Some (Color rows)) b w p =
  is_mostly_black_or_white (Some (Gray (map (map bgr2gray) rows))) b w p.
Proof.
  intros Hne. unfold is_mostly_black_or_white. simpl.
  destruct (decide (concat rows = [])); [done|]. reflexivity.
Qed.

(** C5: the detector answers false on no image and on a single-channel
    image without pixels, but on a colour image without pixels the grey
    conversion comes before the zero-pixel guard and [cv2.error] is
    raised. *)
Theorem is_mostly_black_or_white_zero_pixel_color :
  is_mostly_black_or_white None 30 225 (60 # 100) = Ok false ∧
  is_mostly_black_or_white (Some (Gray [])) 30 225 (60 # 100) = Ok false ∧
  is_mostly_black_or_white (Some (Color [])) 30 225 (60 # 100)
  = Raise (cv2_error "(-215:Assertion failed) !_src.empty() in function 'cvtColor'").
Proof. repeat split. Qed.

End SolidFrame.

(** ** Scene content classifier *)

Section SceneClassifier.
Context {B : Backend}.

(** The two fixed error texts do not contain the token. *)
Lemma error_texts_have_no_token :
  re_search_ignorecase "False" "Error: Input frame was None." = false ∧
  re_search_ignorecase "False" "Error in model processing." = false.
Proof. split; vm_compute; reflexivity. Qed.

(** C6, as the code has it: the frame is reported as not disqualified
    exactly when the returned text contains "False" in any letter case; an
    answer of the client is returned as it is; and when the encoding or the
    inference call fails the frame is disqualified and the returned text is
    the fixed "Error in model processing.", whatever the failure said. *)
Theorem modelObjectDetection_verdict frame_cv prompt :
  ((modelObjectDetection frame_cv prompt).1 = false ↔
   re_search_ignorecase "False" (modelObjectDetection frame_cv prompt).2 = true) ∧
  (∀ frame bytes content,
     frame_cv = Some frame → imencode_jpg frame = Ok bytes →
     ollama_chat prompt bytes = Ok content →
     modelObjectDetection frame_cv prompt
     = (negb (re_search_ignorecase "False" content), content)) ∧
  (∀ frame,
     frame_cv = Some frame →
     (∃ e, imencode_jpg frame = Raise e) ∨
     (∃ bytes e, imencode_jpg frame = Ok bytes ∧
                 ollama_chat prompt bytes = Raise e) →
     modelObjectDetection frame_cv prompt = (true, "Error in model processing.")).
Proof.
  destruct error_texts_have_no_token as [Hnone Herr].
  split; [|split].
  - unfold modelObjectDetection. destruct frame_cv as [frame|]; simpl.
    + destruct (imencode_jpg frame) as [bytes|e]; simpl.
      * destruct (ollama_chat prompt bytes) as [content|e]; simpl.
        -- destruct (re_search_ignorecase "False" content) eqn:E; simpl;
             rewrite ?E; split; congruence.
        -- rewrite Herr. split; congruence.
      * rewrite Herr. split; congruence.
    + rewrite Hnone. split; congruence.
  - intros frame bytes content -> Henc Hchat. unfold modelObjectDetection.
    rewrite Henc, Hchat. destruct (re_search_ignorecase "False" content); reflexivity.
  - intros frame -> [[e He]|(bytes & e & Henc & Hchat)]; unfold modelObjectDetection.
    + rewrite He. reflexivity.
    + rewrite Henc, Hchat. reflexivity.
Qed.

End SceneClassifier.

Lemma modelObjectDetection_verdict_witness :
  modelObjectDetection (B:=example_backend) (Some (Gray [[0]])) "Is it man-made?"
  = (true, "Error in model processing.").
Proof.
  destruct (modelObjectDetection_verdict (B:=example_backend)
              (Some (Gray [[0]])) "Is it man-made?") as (_ & _ & H).
  apply (H (Gray [[0]])); [reflexivity|].
  right. exists [0], (Exception "timed out"). split; reflexivity.
Defined.

(** C6, counterexample: the client fails with the text "timed out"; the
    frame is disqualified, but the text that comes back is the fixed one,
    not the text of the failure. *)
Lemma modelObjectDetection_error_text_counterexample :
  imencode_jpg (Backend:=example_backend) (Gray [[0]]) = Ok [0] ∧
  ollama_chat (Backend:=example_backend) "Is it man-made?" [0]
  = Raise (Exception "timed out") ∧
  modelObjectDetection (B:=example_backend) (Some (Gray [[0]])) "Is it man-made?"
  ≠ (true, "timed out").
Proof. split; [reflexivity|]. split; [reflexivity|]. vm_compute. discriminate. Qed.

(** ** Pattern matcher *)

Section PatternMatcher.
Context {B : Backend}.

Lemma good_matches_length threshold matches :
  length (good_matches threshold matches)
  = length (filter (below threshold) matches).
Proof.
  unfold good_matches. apply Permutation_length.
  rewrite merge_sort_Permutation. reflexivity.
Qed.

Lemma elem_of_good_matches threshold matches m :
  m ∈ good_matches threshold matches ↔
  m ∈ matches ∧ (distance m < threshold)%Q.
Proof.
  unfold good_matches. rewrite list_elem_of_filter.
  rewrite merge_sort_Permutation. unfold below. tauto.
Qed.

(** One turn of the loop, in terms of the count of the reference. *)
Lemma scan_patterns_cons d threshold img name rest best max_good :
  scan_patterns d threshold ((img, name) :: rest) best max_good =
  match good_match_count d threshold (img, name) with
  | Some n =>
      if decide (max_good < n)%nat
      then scan_patterns d threshold rest (Some name) n
      else scan_patterns d threshold rest best max_good
  | None => scan_patterns d threshold rest best max_good
  end.
Proof.
  unfold good_match_count. simpl.
  destruct img as [pattern|]; [|reflexivity].
  destruct (sift_detectAndCompute pattern) as [?|found]; [reflexivity|].
  destruct (usable_descriptors found) as [pd|]; [|reflexivity].
  destruct (bf_match d pd); reflexivity.
Qed.

Lemma scan_patterns_app d threshold l1 l2 best max_good :
  scan_patterns d threshold (l1 ++ l2) best max_good =
  scan_patterns d threshold l2
    (scan_patterns d threshold l1 best max_good).1
    (scan_patterns d threshold l1 best max_good).2.
Proof.
  revert best max_good. induction l1 as [|[img name] l1 IH]; intros best max_good.
  - reflexivity.
  - rewrite <- app_comm_cons, !scan_patterns_cons.
    destruct (good_match_count d threshold (img, name)) as [n|]; [|apply IH].
    destruct (decide (max_good < n)%nat); apply IH.
Qed.

(** References that do not beat the running maximum leave it alone. *)
Lemma scan_patterns_unchanged d threshold refs best max_good :
  Forall (λ r, (score d threshold r ≤ max_good)%nat) refs →
  scan_patterns d threshold refs best max_good = (best, max_good).
Proof.
  induction 1 as [|[img name] rest Hle _ IH]; [reflexivity|].
  rewrite scan_patterns_cons. unfold score in Hle.
  destruct (good_match_count d threshold (img, name)) as [n|]; [|exact IH].
  simpl in Hle. destruct (decide (max_good < n)%nat); [lia|exact IH].
Qed.

(** References below [c] keep the running maximum below [c]. *)
Lemma scan_patterns_below d threshold refs best max_good c :
  Forall (λ r, (score d threshold r < c)%nat) refs →
  (max_good < c)%nat →
  ((scan_patterns d threshold refs best max_good).2 < c)%nat.
Proof.
  intros Hall. revert best max_good.
  induction Hall as [|[img name] rest Hlt _ IH]; intros best max_good Hm;
    [exact Hm|].
  rewrite scan_patterns_cons. unfold score in Hlt.
  destruct (good_match_count d threshold (img, name)) as [n|]; [|by apply IH].
  simpl in Hlt. destruct (decide (max_good < n)%nat); by apply IH.
Qed.

(** The scan returns the earliest reference with the largest count. *)
Lemma scan_patterns_first_best d threshold refs name c :
  first_best d threshold refs name c →
  scan_patterns d threshold refs None 0%nat = (Some name, c).
Proof.
  intros (before & img & after & -> & Hc & Hpos & Hbefore & Hafter).
  rewrite scan_patterns_app.
  pose proof (scan_patterns_below d threshold before None 0%nat c Hbefore Hpos) as Hlt.
  destruct (scan_patterns d threshold before None 0%nat) as [best m].
  cbn [fst snd] in *.
  rewrite scan_patterns_cons, Hc.
  destruct (decide (m < c)%nat); [|lia].
  by apply scan_patterns_unchanged.
Qed.

(** Either nothing beat the maximum the scan started with, or the scan
    ends on the earliest reference with the largest count. *)
Lemma scan_patterns_inv d threshold refs best max_good :
  (scan_patterns d threshold refs best max_good = (best, max_good) ∧
   Forall (λ r, (score d threshold r ≤ max_good)%nat) refs) ∨
  ((max_good < (scan_patterns d threshold refs best max_good).2)%nat ∧
   ∃ before img name after,
     refs = before ++ (img, name) :: after ∧
     (scan_patterns d threshold refs best max_good).1 = Some name ∧
     good_match_count d threshold (img, name)
     = Some (scan_patterns d threshold refs best max_good).2 ∧
     Forall (λ r, (score d threshold r
                   < (scan_patterns d threshold refs best max_good).2)%nat) before ∧
     Forall (λ r, (score d threshold r
                   ≤ (scan_patterns d threshold refs best max_good).2)%nat) after).
Proof.
  revert best max_good.
  induction refs as [|[img name] rest IH]; intros best max_good.
  { left. split; [reflexivity|constructor]. }
  rewrite scan_patterns_cons.
  assert (Hskip : (score d threshold (img, name) ≤ max_good)%nat →
    (scan_patterns d threshold rest best max_good = (best, max_good) ∧
     Forall (λ r, (score d threshold r ≤ max_good)%nat) ((img, name) :: rest)) ∨
    ((max_good < (scan_patterns d threshold rest best max_good).2)%nat ∧
     ∃ before img' name' after,
       (img, name) :: rest = before ++ (img', name') :: after ∧
       (scan_patterns d threshold rest best max_good).1 = Some name' ∧
       good_match_count d threshold (img', name')
       = Some (scan_patterns d threshold rest best max_good).2 ∧
       Forall (λ r, (score d threshold r
                     < (scan_patterns d threshold rest best max_good).2)%nat) before ∧
       Forall (λ r, (score d threshold r
                     ≤ (scan_patterns d threshold rest best max_good).2)%nat) after)).
  { intros Hle.
    destruct (IH best max_good) as [[Heq Hall]|(Hlt & bf & i & n & af & -> & Hb & Hc & Hbf & Haf)].
    - left. split; [exact Heq|by constructor].
    - right. split; [exact Hlt|].
      exists ((img, name) :: bf), i, n, af.
      split; [reflexivity|]. split; [exact Hb|]. split; [exact Hc|].
      split; [|exact Haf]. constructor; [lia|exact Hbf]. }
  destruct (good_match_count d threshold (img, name)) as [n|] eqn:Hcount.
  2: { apply Hskip. unfold score. rewrite Hcount. simpl. lia. }
  destruct (decide (max_good < n)%nat) as [Hlt|Hge].
  2: { apply Hskip. unfold score. rewrite Hcount. simpl. lia. }
  right.
  destruct (IH (Some name) n) as [[Heq Hall]|(Hlt' & bf & i & n' & af & -> & Hb & Hc & Hbf & Haf)].
  - rewrite Heq. simpl. split; [exact Hlt|].
    exists [], img, name, rest.
    split; [reflexivity|]. split; [reflexivity|]. split; [exact Hcount|].
    split; [constructor|exact Hall].
  - split; [lia|].
    exists ((img, name) :: bf), i, n', af.
    split; [reflexivity|]. split; [exact Hb|]. split; [exact Hc|].
    split; [|exact Haf].
    constructor; [|exact Hbf]. unfold score. rewrite Hcount. simpl. lia.
Qed.

(** The matcher is the scan run on the descriptors of the query. *)
Lemma patternThresholding_unfold test_image refs threshold :
  patternThresholding test_image refs threshold =
  match query_descriptors test_image with
  | Raise e => Raise e
  | Ok None => Ok None
  | Ok (Some d) =>
      Ok (if decide (0 < (scan_patterns d threshold refs None 0%nat).2)%nat
          then (scan_patterns d threshold refs None 0%nat).1
          else Some "No_Pattern_Match")
  end.
Proof.
  unfold patternThresholding, query_descriptors.
  destruct test_image as [a|]; [|reflexivity].
  destruct (if decide (ndim a = 3%nat) then cvtColor_BGR2GRAY a else Ok a)
    as [gray|e]; [|reflexivity].
  destruct (sift_detectAndCompute gray) as [?|found]; [reflexivity|].
  destruct (usable_descriptors found) as [d|]; [|reflexivity].
  destruct (scan_patterns d threshold refs None 0%nat). reflexivity.
Qed.



(** C4: a correspondence is a good match exactly when its distance is
    strictly below the cutoff, and the label returned is that of the
    earliest reference attaining the largest nonzero good-match count: a
    later reference with the same count does not replace it. *)
Theorem patternThresholding_stable_tie_break :
  (∀ threshold matches m,
     m ∈ good_matches threshold matches ↔
     m ∈ matches ∧ (distance m < threshold)%Q) ∧
  (∀ test_image refs threshold d name c,
     query_descriptors test_image = Ok (Some d) →
     first_best d threshold refs name c →
     patternThresholding test_image refs threshold = Ok (Some name)).
Proof.
  split; [apply elem_of_good_matches|].
  intros test_image refs threshold d name c Hd Hbest.
  rewrite patternThresholding_unfold, Hd.
  rewrite (scan_patterns_first_best d threshold refs name c Hbest). simpl.
  destruct Hbest as (_ & _ & _ & _ & _ & Hpos & _).
  destruct (decide _); [reflexivity|lia].
Qed.

End PatternMatcher.


Lemma patternThresholding_stable_tie_break_witness :
  patternThresholding (B:=example_backend) (Some (Gray [[5; 7]]))
    [(Some (Gray [[5; 100]]), "a.png"); (Some (Gray [[50; 7]]), "b.png")]
    (10 # 1) = Ok (Some "a.png").
Proof.
  apply (proj2 (patternThresholding_stable_tie_break (B:=example_backend))
           _ _ _ [5; 7] "a.png" 1%nat); [reflexivity|].
  exists [], (Some (Gray [[5; 100]])), [(Some (Gray [[50; 7]]), "b.png")].
  split; [reflexivity|]. split; [reflexivity|]. split; [lia|].
  split; [constructor|].
  constructor; [vm_compute; lia|constructor].
Defined.

(** ** The unbound name *)

Section UnboundName.
Context {B : Backend}.

Example parts_of_text :
  parts "pipeline_output//J/./Accepted_images"
  = ["pipeline_output"; "J"; "Accepted_images"].
Proof. reflexivity. Qed.

Example joinpath_with_separator :
  joinpath ["pipeline_output"] "a/b" = ["pipeline_output"; "a"; "b"].
Proof. reflexivity. Qed.

Lemma Path_not_bound : "Path" ∉ module_globals.
Proof.
  intros Hin. apply (bool_decide_eq_true_2 _) in Hin.
  vm_compute in Hin. discriminate Hin.
Qed.

(** The module binds no [Path]: every [Path(...)] raises, and nothing has
    changed when it does. *)
Lemma Path_raises {A} `{PathLike A} (a : A) w :
  Path a w = (Raise (NameError "name 'Path' is not defined"), w).
Proof. reflexivity. Qed.

Lemma sort_into_folders_raises out label raw rn rs rsn w :
  sort_into_folders out label raw rn rs rsn w
  = (Raise (NameError "name 'Path' is not defined"), w).
Proof. reflexivity. Qed.

Lemma create_text_file_with_removed_images_raises out log w :
  create_text_file_with_removed_images out log w
  = (Raise (NameError "name 'Path' is not defined"), w).
Proof. reflexivity. Qed.

Lemma create_zip_from_directory_raises dir job w :
  create_zip_from_directory dir job w
  = (Raise (NameError "name 'Path' is not defined"), w).
Proof. reflexivity. Qed.

Lemma process_video_frames_raises job praw prs paths thres cfg w :
  process_video_frames job praw prs paths thres cfg w
  = (Raise (NameError "name 'Path' is not defined"), w).
Proof. reflexivity. Qed.

End UnboundName.

(** ** Frame-pair evaluator *)

Section Evaluator.
Context {B : Backend}.

(** The evaluator, stage by stage: a pair that passes the stages is handed
    to [sort_into_folders], which raises. *)
Lemma load_and_process_frame_pair_unfold raw rn rs rsn pats out s o p bw prompt thr w :
  load_and_process_frame_pair raw rn rs rsn pats out s o p bw prompt thr w =
  let w' := add_calls w (stage_trace s o p raw rs pats bw prompt) in
  match solid_stage s rs bw with
  | Raise e => (Raise e, w')
  | Ok true => (Ok (false, "Rejected: Mostly black or white"), w')
  | Ok false =>
      if (scene_stage o raw prompt).1
      then (Ok (false, scene_rejection (scene_stage o raw prompt).2), w')
      else
        match label_stage p rs pats thr with
        | Raise e => (Raise e, w')
        | Ok label =>
            (Raise (NameError "name 'Path' is not defined"),
             add_calls w' [SortIntoFolders label rn rsn])
        end
  end.
Proof.
  destruct w as [d c]. destruct bw as [[black white] fraction_cutoff].
  unfold load_and_process_frame_pair, stage_trace, solid_stage, scene_stage,
    label_stage, scene_rejection, add_calls.
  unfold mbind at 1, M_bind at 1.
  destruct s; cbn [fst snd fs calls];
    unfold mbind at 1, M_bind at 1, record_call, lift, mret, M_ret;
    cbn [fst snd fs calls].
  1: destruct (is_mostly_black_or_white rs black white fraction_cutoff) as [[|]|e];
       [reflexivity| |reflexivity].
  all: unfold mbind at 1, M_bind at 1; destruct o; cbn [fst snd fs calls];
       unfold mbind at 1, M_bind at 1; cbn [fst snd fs calls].
  all: try destruct (modelObjectDetection raw prompt) as [[|] reason];
       cbn [fst snd fs calls]; rewrite <- ?app_assoc, ?app_nil_r;
       try reflexivity.
  all: unfold mbind at 1, M_bind at 1; destruct p; cbn [andb negb];
       [destruct pats as [|r pats]|]; cbn [fst snd fs calls];
       rewrite ?app_nil_r.
  all: try (rewrite (bool_decide_eq_false_2 (r :: pats = [])) by done;
            cbn [negb];
            unfold mbind at 1, M_bind at 1; cbn [fst snd fs calls];
            unfold mbind at 1, M_bind at 1; cbn [fst snd fs calls];
            destruct (patternThresholding rs (r :: pats) thr) as [best|e];
            rewrite <- ?app_assoc; cbn [app];
            [destruct (truthy best)|reflexivity]).
  all: unfold mbind, M_bind; cbn [fst snd fs calls];
       rewrite <- ?app_assoc; reflexivity.
Qed.

Local Ltac done_calls :=
  cbn [app]; rewrite ?app_nil_r, <- ?app_assoc; cbn [app]; reflexivity.

(** C2, as the code has it: the enabled stages run in the order solid-frame
    check on the realsense frame, scene check on the raw frame, pattern
    matching on the realsense frame, and the first stage that rejects ends
    the evaluation with a rejected verdict, no later stage being run.  A
    pair that passes is labelled "Uncategorized" when matching is disabled,
    "No_Patterns_Available" when it is enabled without references,
    "No_Pattern_Match" when the matcher returns null (or an empty name), and
    with the name the matcher returns otherwise; this label is the folder
    handed to [sort_into_folders], whose first statement reads the unbound
    name [Path]: the evaluation of a passing pair ends with [NameError], not
    with an accepted verdict. *)
Theorem load_and_process_frame_pair_stages
    raw rn rs rsn pats out s o p bw prompt thr w :
  let run := load_and_process_frame_pair raw rn rs rsn pats out s o p bw prompt thr w in
  let solid_call := if s then [SolidColorCheck rs] else [] in
  let scene_call := if o then [ObjectDetection raw] else [] in
  let passes label matcher_call :=
    run = (Raise (NameError "name 'Path' is not defined"),
           add_calls w (solid_call ++ scene_call ++ matcher_call
                        ++ [SortIntoFolders label rn rsn])) in
  (∀ e, solid_stage s rs bw = Raise e →
        run = (Raise e, add_calls w [SolidColorCheck rs])) ∧
  (solid_stage s rs bw = Ok true →
   run = (Ok (false, "Rejected: Mostly black or white"),
          add_calls w [SolidColorCheck rs])) ∧
  (solid_stage s rs bw = Ok false →
   (scene_stage o raw prompt).1 = true →
   run = (Ok (false, scene_rejection (scene_stage o raw prompt).2),
          add_calls w (solid_call ++ [ObjectDetection raw]))) ∧
  (solid_stage s rs bw = Ok false →
   (scene_stage o raw prompt).1 = false →
   (p = false → passes "Uncategorized" []) ∧
   (p = true → pats = [] → passes "No_Patterns_Available" []) ∧
   (p = true → pats ≠ [] →
    patternThresholding rs pats thr = Ok None →
    passes "No_Pattern_Match" [PatternMatching rs]) ∧
   (∀ name, p = true → pats ≠ [] →
      patternThresholding rs pats thr = Ok (Some name) →
      passes (if decide (name = EmptyString) then "No_Pattern_Match" else name)
             [PatternMatching rs]) ∧
   (∀ e, p = true → pats ≠ [] →
      patternThresholding rs pats thr = Raise e →
      run = (Raise e, add_calls w (solid_call ++ scene_call
                                   ++ [PatternMatching rs])))).
Proof.
  intros run solid_call scene_call passes. subst run passes.
  rewrite load_and_process_frame_pair_unfold. cbn zeta.
  unfold stage_trace, add_calls. subst solid_call scene_call.
  split; [|split; [|split]].
  - intros e Hsolid. rewrite Hsolid.
    destruct s; [by rewrite app_nil_r|]. discriminate Hsolid.
  - intros Hsolid. rewrite Hsolid.
    destruct s; [by rewrite app_nil_r|]. discriminate Hsolid.
  - intros Hsolid Hscene. rewrite Hsolid, Hscene.
    destruct o; [by rewrite app_nil_r|]. discriminate Hscene.
  - intros Hsolid Hscene. rewrite Hsolid, Hscene.
    unfold label_stage. cbn [fs calls].
    split; [|split; [|split; [|split]]].
    + intros ->. cbn [andb]. done_calls.
    + intros -> ->. cbn [andb negb]. rewrite bool_decide_eq_true_2 by done.
      cbn [negb]. done_calls.
    + intros -> Hpats Hnull. destruct pats as [|r pats]; [done|].
      rewrite Hnull. cbn [andb]. rewrite bool_decide_eq_false_2 by done.
      cbn [negb truthy]. done_calls.
    + intros name -> Hpats Hname. destruct pats as [|r pats]; [done|].
      rewrite Hname. cbn [andb]. rewrite bool_decide_eq_false_2 by done.
      cbn [negb truthy default].
      destruct (decide (name = EmptyString)) as [->|Hne].
      * rewrite bool_decide_eq_true_2 by done. cbn [negb].
        done_calls.
      * rewrite bool_decide_eq_false_2 by done. cbn [negb].
        done_calls.
    + intros e -> Hpats Hraise. destruct pats as [|r pats]; [done|].
      rewrite Hraise. cbn [andb]. rewrite bool_decide_eq_false_2 by done.
      cbn [negb]. done_calls.
Qed.


End Evaluator.

Lemma load_and_process_frame_pair_stages_witness :
  load_and_process_frame_pair (B:=example_backend)
    (Some (Gray [[2; 90]])) "raw_frame_00000.png"
    (Some (Gray [[0; 0]])) "realsense_frame_00000.png"
    [(Some (Gray [[5]]), "a.png")] ["out"] true true true
    (-1, 256, 60 # 100) "Is it man-made?" (200 # 1) empty_world
  = (Raise (NameError "name 'Path' is not defined"),
     add_calls empty_world
       [SolidColorCheck (Some (Gray [[0; 0]]));
        ObjectDetection (Some (Gray [[2; 90]]));
        PatternMatching (Some (Gray [[0; 0]]));
        SortIntoFolders "No_Pattern_Match" "raw_frame_00000.png"
          "realsense_frame_00000.png"]).
Proof.
  destruct (load_and_process_frame_pair_stages (B:=example_backend)
     (Some (Gray [[2; 90]])) "raw_frame_00000.png"
     (Some (Gray [[0; 0]])) "realsense_frame_00000.png"
     [(Some (Gray [[5]]), "a.png")] ["out"] true true true
     (-1, 256, 60 # 100) "Is it man-made?" (200 # 1) empty_world)
    as (_ & _ & _ & Hpasses).
  destruct Hpasses as (_ & _ & Hnull & _); [reflexivity..|].
  apply Hnull; [reflexivity|discriminate|reflexivity].
Defined.

(** ** Video pair walker and whole runs *)

Section Run.
Context {B : Backend}.

Example raw_frame_name_of_7 : raw_frame_name_of 7 = "raw_frame_00007.png".
Proof. reflexivity. Qed.

Example realsense_frame_name_of_123 :
  realsense_frame_name_of 123 = "realsense_frame_00123.png".
Proof. reflexivity. Qed.




(** C1, at every input: the run ends with [NameError], raised by the first
    statement that reads [Path]; it never reports the valid empty outcome
    (a count with no archive). *)
Theorem process_video_frames_no_empty_outcome
    job praw prs paths thres cfg w :
  let run := process_video_frames job praw prs paths thres cfg w in
  run.1 = Raise (NameError "name 'Path' is not defined") ∧
  ∀ processed, run.1 ≠ Ok (processed, None).
Proof.
  cbn zeta. rewrite process_video_frames_raises. split; [reflexivity|].
  intros processed. discriminate.
Qed.

(** C7, at every input, whatever the lengths of the two sources: the run
    ends before either source is opened; no stage is run on any frame and
    no number of processed pairs is returned. *)
Theorem process_video_frames_walks_no_pair
    job praw prs paths thres cfg w :
  let run := process_video_frames job praw prs paths thres cfg w in
  calls run.2 = calls w ∧
  ∀ processed archive, run.1 ≠ Ok (processed, archive).
Proof.
  cbn zeta. rewrite process_video_frames_raises. split; [reflexivity|].
  intros processed archive. discriminate.
Qed.

(** C8, at every input: whatever the evaluator would say of the pairs of
    the sources, the run writes no rejection log: what is at the path of
    the log after the run is what was there before it. *)
Theorem process_video_frames_writes_no_log
    job praw prs paths thres cfg w :
  let run := process_video_frames job praw prs paths thres cfg w in
  fs run.2 !! log_path_of job = fs w !! log_path_of job.
Proof.
  cbn zeta. rewrite process_video_frames_raises. reflexivity.
Qed.

(** C9, at every input: the run leaves the disk as it found it; nothing
    under the output directory of the job is deleted or created. *)
Theorem process_video_frames_keeps_output_dir
    job praw prs paths thres cfg w :
  fs (process_video_frames job praw prs paths thres cfg w).2 = fs w.
Proof.
  rewrite process_video_frames_raises. reflexivity.
Qed.


End Run.

(** ** Frame names *)

Section Names.

Lemma string_app_cons c a b : String c a +:+ b = String c (a +:+ b).
Proof. reflexivity. Qed.

Lemma string_length_app s1 s2 :
  String.length (s1 +:+ s2) = (String.length s1 + String.length s2)%nat.
Proof. induction s1; simpl; [done|]. by rewrite IHs1. Qed.














End Names.

(** ** Solid-frame detector: thresholds and failures *)

Section SolidFrameMore.
Context {B : Backend}.

Lemma concat_map_map {A C} (f : A → C) (rows : list (list A)) :
  concat (map (map f) rows) = map f (concat rows).
Proof.
  induction rows as [|r rows IH]; simpl; [reflexivity|].
  by rewrite map_app, IH.
Qed.

Lemma gray_levels_length a : length (gray_levels a) = pixel_count a.
Proof. destruct a; simpl; [reflexivity|]. by rewrite length_map. Qed.

(** The detector on an image with pixels, in terms of its grey levels. *)
Lemma is_mostly_black_or_white_levels a b w p :
  has_pixels a →
  is_mostly_black_or_white (Some a) b w p =
  Ok (Qle_bool p (fraction (count_le b (gray_levels a)) (pixel_count a))
      || Qle_bool p (fraction (count_ge w (gray_levels a)) (pixel_count a))).
Proof.
  unfold has_pixels, is_mostly_black_or_white. intros Hpix.
  destruct a as [rows|rows]; simpl in *.
  - destruct (decide (length (concat rows) = 0%nat)); [done|reflexivity].
  - destruct (decide (concat rows = [])) as [E|_].
    { rewrite E in Hpix. done. }
    simpl. rewrite !concat_map_map, !length_map.
    destruct (decide (length (concat rows) = 0%nat)); [done|reflexivity].
Qed.

Lemma count_le_bound v l : (count_le v l ≤ length l)%nat.
Proof. unfold count_le. apply length_filter. Qed.
Lemma count_ge_bound v l : (count_ge v l ≤ length l)%nat.
Proof. unfold count_ge. apply length_filter. Qed.

Lemma fraction_le (c1 c2 n : nat) :
  (c1 ≤ c2)%nat → (fraction c1 n <= fraction c2 n)%Q.
Proof. intros H. unfold fraction, Qle. simpl. nia. Qed.

Lemma fraction_nonneg c n : (0 <= fraction c n)%Q.
Proof. unfold fraction, Qle. simpl. lia. Qed.

Lemma fraction_le_1 (c n : nat) : (c ≤ n)%nat → n ≠ 0%nat → (fraction c n <= 1)%Q.
Proof.
  intros H Hn. unfold fraction, Qle. simpl.
  rewrite Z.mul_1_r, Z.mul_1_l.
  rewrite <- (Nat2Pos.id n) in H at 1 by done. lia.
Qed.

Lemma fraction_all (n : nat) : n ≠ 0%nat → (fraction n n == 1)%Q.
Proof.
  intros Hn. unfold fraction, Qeq. simpl.
  rewrite Z.mul_1_r, Z.mul_1_l.
  rewrite <- (Nat2Pos.id n) at 1 by done. lia.
Qed.

Lemma count_le_mono v v' l : v ≤ v' → (count_le v l ≤ count_le v' l)%nat.
Proof.
  intros Hv. unfold count_le. induction l as [|x l IH]; [done|].
  rewrite !filter_cons. repeat case_decide; simpl; lia.
Qed.
Lemma count_ge_mono v v' l : v' ≤ v → (count_ge v l ≤ count_ge v' l)%nat.
Proof.
  intros Hv. unfold count_ge. induction l as [|x l IH]; [done|].
  rewrite !filter_cons. repeat case_decide; simpl; lia.
Qed.

(** X1: the detector fails exactly on a colour image without pixels: on
    every other input it answers. *)
Theorem is_mostly_black_or_white_raises img b w p :
  (∃ e, is_mostly_black_or_white img b w p = Raise e) ↔
  (∃ rows, img = Some (Color rows) ∧ concat rows = []).
Proof.
  split.
  - intros [e He]. destruct img as [[rows|rows]|].
    + unfold is_mostly_black_or_white in He. simpl in He.
      destruct (decide _); discriminate.
    + exists rows. split; [reflexivity|].
      destruct (decide (concat rows = [])) as [E|Hne]; [exact E|].
      rewrite is_mostly_black_or_white_levels in He; [discriminate|].
      unfold has_pixels. simpl. by destruct (concat rows).
    + discriminate.
  - intros (rows & -> & Hrows). eexists.
    unfold is_mostly_black_or_white. simpl. rewrite decide_True by done.
    reflexivity.
Qed.

(** X2: with a fraction cutoff of zero or less, every image with pixels is
    degenerate; with a cutoff above one, none is. *)
Theorem is_mostly_black_or_white_cutoff_bounds a b w p :
  has_pixels a →
  ((p <= 0)%Q → is_mostly_black_or_white (Some a) b w p = Ok true) ∧
  ((1 < p)%Q → is_mostly_black_or_white (Some a) b w p = Ok false).
Proof.
  intros Hpix. rewrite is_mostly_black_or_white_levels by done. split.
  - intros Hp. f_equal. apply orb_true_iff. left. apply Qle_bool_iff.
    eapply Qle_trans; [exact Hp|apply fraction_nonneg].
  - intros Hp. f_equal. apply orb_false_iff.
    split; apply not_true_iff_false; rewrite Qle_bool_iff; intros Hle.
    + apply (Qlt_not_le _ _ Hp). eapply Qle_trans; [exact Hle|].
      apply fraction_le_1; [|exact Hpix].
      rewrite <- gray_levels_length. apply count_le_bound.
    + apply (Qlt_not_le _ _ Hp). eapply Qle_trans; [exact Hle|].
      apply fraction_le_1; [|exact Hpix].
      rewrite <- gray_levels_length. apply count_ge_bound.
Qed.

(** X3: an image found degenerate stays so when the black cutoff is raised,
    the white cutoff lowered or the fraction cutoff lowered. *)
Theorem is_mostly_black_or_white_monotone a b b' w w' p p' :
  has_pixels a → b ≤ b' → w' ≤ w → (p' <= p)%Q →
  is_mostly_black_or_white (Some a) b w p = Ok true →
  is_mostly_black_or_white (Some a) b' w' p' = Ok true.
Proof.
  intros Hpix Hb Hw Hp. rewrite !is_mostly_black_or_white_levels by done.
  intros [= H]. f_equal. apply orb_true_iff in H. apply orb_true_iff.
  rewrite !Qle_bool_iff in *. destruct H as [H|H]; [left|right].
  - eapply Qle_trans; [exact Hp|]. eapply Qle_trans; [exact H|].
    by apply fraction_le, count_le_mono.
  - eapply Qle_trans; [exact Hp|]. eapply Qle_trans; [exact H|].
    by apply fraction_le, count_ge_mono.
Qed.

Lemma count_le_uniform v b l :
  Forall (λ x, x = v) l →
  count_le b l = if decide (v ≤ b) then length l else 0%nat.
Proof.
  unfold count_le. induction 1 as [|x l -> _ IH]; [by case_decide|].
  rewrite filter_cons. destruct (decide (v ≤ b)); simpl; lia.
Qed.
Lemma count_ge_uniform v w l :
  Forall (λ x, x = v) l →
  count_ge w l = if decide (w ≤ v) then length l else 0%nat.
Proof.
  unfold count_ge. induction 1 as [|x l -> _ IH]; [by case_decide|].
  rewrite filter_cons. destruct (decide (w ≤ v)); simpl; lia.
Qed.

(** X4: an image of one grey level, judged with a fraction cutoff in
    (0, 1], is degenerate exactly when that level is at or below the black
    cutoff or at or above the white one. *)
Theorem is_mostly_black_or_white_uniform a v b w p :
  has_pixels a → Forall (λ x, x = v) (gray_levels a) →
  (0 < p)%Q → (p <= 1)%Q →
  is_mostly_black_or_white (Some a) b w p = Ok (bool_decide (v ≤ b ∨ w ≤ v)).
Proof.
  intros Hpix Hall Hp0 Hp1.
  rewrite is_mostly_black_or_white_levels by done. f_equal.
  rewrite (count_le_uniform v), (count_ge_uniform v) by done.
  rewrite gray_levels_length.
  assert (Hone : Qle_bool p (fraction (pixel_count a) (pixel_count a)) = true).
  { apply Qle_bool_iff. rewrite fraction_all by done. exact Hp1. }
  assert (Hzero : Qle_bool p (fraction 0 (pixel_count a)) = false).
  { apply not_true_iff_false. rewrite Qle_bool_iff. intros H.
    apply (Qlt_not_le _ _ Hp0). eapply Qle_trans; [exact H|].
    unfold fraction, Qle. simpl. lia. }
  destruct (decide (v ≤ b)), (decide (w ≤ v));
    rewrite ?Hone, ?Hzero; simpl; symmetry;
    (apply bool_decide_eq_true; tauto) || (apply bool_decide_eq_false; tauto).
Qed.

End SolidFrameMore.

(** ** Scene content classifier: the token and the reasons *)

Section SceneMore.
Context {B : Backend}.

Lemma string_prefix_spec pat s :
  String.prefix pat s = true ↔ ∃ post, s = pat +:+ post.
Proof.
  revert s. induction pat as [|c pat IH]; intros s.
  - split; [intros _; by exists s|]. intros _. by destruct s.
  - destruct s as [|c' s]; simpl.
    + split; [done|]. intros [post H]. done.
    + destruct (Ascii.ascii_dec c c') as [->|Hne].
      * rewrite IH. split; intros [post H]; exists post;
          rewrite string_app_cons in *; congruence.
      * split; [done|]. intros [post H]. rewrite string_app_cons in H. congruence.
Qed.

Lemma occurs_spec pat s :
  occurs pat s = true ↔ ∃ pre post, s = pre +:+ pat +:+ post.
Proof.
  induction s as [|c s IH].
  - cbn [occurs]. rewrite orb_false_r, string_prefix_spec. split.
    + intros [post H]. by exists EmptyString, post.
    + intros (pre & post & H). destruct pre; [by exists post|done].
  - cbn [occurs]. rewrite orb_true_iff, string_prefix_spec, IH. split.
    + intros [[post H]|(pre & post & H)].
      * by exists EmptyString, post.
      * exists (String c pre), post. by rewrite string_app_cons, H.
    + intros (pre & post & H). destruct pre as [|c' pre].
      * left. by exists post.
      * right. exists pre, post. rewrite string_app_cons in H. congruence.
Qed.

Lemma lower_app s1 s2 : lower (s1 +:+ s2) = lower s1 +:+ lower s2.
Proof. induction s1 as [|c s1 IH]; simpl; [done|]. by rewrite IH. Qed.

Lemma lower_app_inv s a b :
  lower s = a +:+ b → ∃ s1 s2, s = s1 +:+ s2 ∧ lower s1 = a ∧ lower s2 = b.
Proof.
  revert s. induction a as [|c a IH]; intros s H.
  - by exists EmptyString, s.
  - destruct s as [|c' s]; [done|]. simpl in H. injection H as Hc H.
    destruct (IH s H) as (s1 & s2 & -> & <- & <-).
    exists (String c' s1), s2. simpl. by rewrite Hc.
Qed.

(** The search finds a piece of the text that is the pattern up to the case
    of its letters. *)
Lemma re_search_ignorecase_spec pat s :
  re_search_ignorecase pat s = true ↔
  ∃ pre mid post, s = pre +:+ mid +:+ post ∧ lower mid = lower pat.
Proof.
  unfold re_search_ignorecase. rewrite occurs_spec. split.
  - intros (pre' & post' & H).
    apply lower_app_inv in H as (pre & rest & -> & _ & H).
    apply lower_app_inv in H as (mid & post & -> & Hmid & _).
    by exists pre, mid, post.
  - intros (pre & mid & post & -> & Hmid).
    exists (lower pre), (lower post). by rewrite !lower_app, Hmid.
Qed.

(** X5: a frame is reported as not disqualified exactly when the client
    answered and its answer has a piece that reads "false" in some case of
    the letters; no failure clears a frame. *)
Theorem modelObjectDetection_cleared frame_cv prompt :
  (modelObjectDetection frame_cv prompt).1 = false ↔
  ∃ frame bytes pre mid post,
    frame_cv = Some frame ∧ imencode_jpg frame = Ok bytes ∧
    ollama_chat prompt bytes = Ok (pre +:+ mid +:+ post) ∧
    lower mid = "false".
Proof.
  unfold modelObjectDetection. split.
  - destruct frame_cv as [frame|]; [|done].
    destruct (imencode_jpg frame) as [bytes|] eqn:Henc; [|done].
    destruct (ollama_chat prompt bytes) as [content|] eqn:Hchat; [|done].
    destruct (re_search_ignorecase "False" content) eqn:Hs; [|done].
    intros _. apply re_search_ignorecase_spec in Hs as (pre & mid & post & -> & Hmid).
    by exists frame, bytes, pre, mid, post.
  - intros (frame & bytes & pre & mid & post & -> & -> & -> & Hmid).
    rewrite (proj2 (re_search_ignorecase_spec "False" _)); [done|].
    by exists pre, mid, post.
Qed.

Lemma substring_length_le n s : (String.length (substring 0 n s) ≤ n)%nat.
Proof.
  revert s. induction n as [|n IH]; intros [|c s]; simpl; try lia.
  specialize (IH s). lia.
Qed.

(** X6: the reason of a rejection has at most 91 characters: the answer of
    the client is cut to its first 50. *)
Theorem load_and_process_frame_pair_reason_bounded
    raw rn rs rsn pats out s o p bw prompt thr w reason :
  (load_and_process_frame_pair raw rn rs rsn pats out s o p bw prompt thr w).1
  = Ok (false, reason) →
  (String.length reason ≤ 91)%nat.
Proof.
  rewrite load_and_process_frame_pair_unfold. cbn zeta.
  destruct (solid_stage s rs bw) as [[|]|e]; try discriminate.
  { intros [= <-]. simpl. lia. }
  destruct (scene_stage o raw prompt) as [detected reason'] eqn:Hscene.
  cbn [fst snd]. destruct detected.
  { intros [= <-]. unfold scene_rejection.
    rewrite !string_length_app.
    pose proof (substring_length_le 50 reason'). simpl. lia. }
  destruct (label_stage p rs pats thr) as [label|e]; discriminate.
Qed.

End SceneMore.

(** ** Pattern matcher: counts and labels *)

Section MatcherMore.
Context {B : Backend}.

Lemma filter_below_mono t1 t2 (ms : list DMatch) :
  (t1 <= t2)%Q →
  (length (filter (below t1) ms) ≤ length (filter (below t2) ms))%nat.
Proof.
  intros Ht. induction ms as [|m ms IH]; [done|].
  rewrite !filter_cons.
  destruct (decide (below t1 m)) as [H1|H1], (decide (below t2 m)) as [H2|H2];
    simpl; try lia.
  exfalso. apply H2. unfold below in *. eapply Qlt_le_trans; eauto.
Qed.

(** X7: the good-match count grows with the cutoff and never exceeds the
    number of correspondences. *)
Theorem good_matches_monotone t1 t2 matches :
  (t1 <= t2)%Q →
  (length (good_matches t1 matches) ≤ length (good_matches t2 matches))%nat ∧
  (length (good_matches t2 matches) ≤ length matches)%nat.
Proof.
  intros Ht. rewrite !good_matches_length. split.
  - by apply filter_below_mono.
  - apply length_filter.
Qed.

(** A reference without good matches does not move the scan. *)
Lemma scan_patterns_skip d thr r rest best max_good :
  score d thr r = 0%nat →
  scan_patterns d thr (r :: rest) best max_good
  = scan_patterns d thr rest best max_good.
Proof.
  destruct r as [img name]. intros Hscore. rewrite scan_patterns_cons.
  unfold score in Hscore.
  destruct (good_match_count d thr (img, name)) as [n|]; [|reflexivity].
  simpl in Hscore. subst n. destruct (decide _); [lia|reflexivity].
Qed.

(** X8: a reference without good matches (or one the scan skips) can be
    taken out of the list without changing the answer. *)
Theorem patternThresholding_drop_unmatched test_image before r after thr :
  (∀ d, query_descriptors test_image = Ok (Some d) → score d thr r = 0%nat) →
  patternThresholding test_image (before ++ r :: after) thr
  = patternThresholding test_image (before ++ after) thr.
Proof.
  intros Hscore. rewrite !patternThresholding_unfold.
  destruct (query_descriptors test_image) as [[d|]|e]; try reflexivity.
  rewrite !scan_patterns_app, scan_patterns_skip by auto. reflexivity.
Qed.

(** X9: a label returned is the name of one of the references given, or
    the sentinel. *)
Theorem patternThresholding_label_origin test_image refs thr label :
  patternThresholding test_image refs thr = Ok (Some label) →
  label = "No_Pattern_Match" ∨ label ∈ refs.*2.
Proof.
  rewrite patternThresholding_unfold.
  destruct (query_descriptors test_image) as [[d|]|e]; try discriminate.
  destruct (scan_patterns_inv d thr refs None 0%nat)
    as [[Heq _]|(Hlt & bf & img & name & af & -> & Hb & _)].
  - rewrite Heq. simpl. intros [= <-]. by left.
  - destruct (decide _); [|lia]. rewrite Hb. intros [= <-]. right.
    rewrite fmap_app, fmap_cons. simpl. set_solver.
Qed.

(** X10: when one reference has strictly more good matches than every
    other, it is returned whatever the order of the list. *)
Theorem patternThresholding_order_irrelevant
    test_image refs refs' thr d before img name after c :
  query_descriptors test_image = Ok (Some d) →
  refs = before ++ (img, name) :: after →
  good_match_count d thr (img, name) = Some c → (0 < c)%nat →
  Forall (λ r, (score d thr r < c)%nat) (before ++ after) →
  refs' ≡ₚ refs →
  patternThresholding test_image refs' thr = Ok (Some name).
Proof.
  intros Hd -> Hc Hpos Hothers Hperm.
  assert (Hin : (img, name) ∈ refs').
  { rewrite Hperm. set_solver. }
  apply list_elem_of_split in Hin as (before' & after' & ->).
  apply Permutation_app_inv in Hperm.
  rewrite <- Hperm in Hothers. apply Forall_app in Hothers as [Hb Ha].
  rewrite patternThresholding_unfold, Hd.
  rewrite (scan_patterns_first_best d thr _ name c).
  - simpl. destruct (decide _); [reflexivity|lia].
  - exists before', img, after'. repeat split; try done.
    eapply Forall_impl; [exact Ha|]. simpl. lia.
Qed.

End MatcherMore.

(** ** Frame-pair evaluator: what a pair leaves behind *)

Section EvaluatorMore.
Context {B : Backend}.

Lemma label_stage_nonempty p rs pats thr label :
  label_stage p rs pats thr = Ok label → label ≠ EmptyString.
Proof.
  unfold label_stage. destruct p; [|by intros [= <-]].
  destruct pats as [|r pats]; [by intros [= <-]|].
  destruct (patternThresholding rs (r :: pats) thr) as [[name|]|e];
    simpl; try discriminate; [|by intros [= <-]].
  case_bool_decide as Hname; simpl; intros [= <-]; done.
Qed.

(** The label of a passing pair is one of the evaluator's own or the name
    of a reference. *)
Lemma label_stage_origin p rs pats thr label :
  label_stage p rs pats thr = Ok label →
  label ∈ own_labels ∨ label ∈ pats.*2.
Proof.
  unfold label_stage, own_labels. destruct p.
  2: { intros [= <-]. left. apply elem_of_cons. by left. }
  destruct pats as [|r pats].
  { intros [= <-]. left. apply elem_of_cons. right. apply elem_of_cons. by left. }
  assert (Hsentinel : "No_Pattern_Match"
                      ∈ ["Uncategorized"; "No_Patterns_Available"; "No_Pattern_Match"]).
  { do 2 (apply elem_of_cons; right). apply elem_of_cons. by left. }
  remember (r :: pats) as refs eqn:Hcons. clear Hcons.
  rewrite patternThresholding_unfold.
  destruct (query_descriptors rs) as [[d|]|e]; try discriminate.
  2: { simpl. intros [= <-]. by left. }
  destruct (scan_patterns_inv d thr refs None 0%nat)
    as [[Heq _]|(Hlt & bf & img & name & af & Hrefs & Hb & _)].
  - rewrite Heq. simpl. intros [= <-]. by left.
  - destruct (decide _); [|lia]. rewrite Hb. simpl.
    case_bool_decide as Hname; simpl; intros [= <-]; [by left|].
    right. rewrite Hrefs, fmap_app, fmap_cons. simpl.
    apply elem_of_app. right. apply elem_of_cons. by left.
Qed.

(** No stage of the trace is a call of [sort_into_folders]. *)
Lemma stage_trace_stages s o p raw rs pats bw prompt c :
  c ∈ stage_trace s o p raw rs pats bw prompt →
  c = SolidColorCheck rs ∨ c = ObjectDetection raw ∨ c = PatternMatching rs.
Proof.
  unfold stage_trace. intros Hc. apply elem_of_app in Hc as [Hc|Hc].
  { destruct s; [|by apply not_elem_of_nil in Hc].
    apply list_elem_of_singleton in Hc. by left. }
  destruct (solid_stage s rs bw) as [[|]|?];
    try by apply not_elem_of_nil in Hc.
  apply elem_of_app in Hc as [Hc|Hc].
  { destruct o; [|by apply not_elem_of_nil in Hc].
    apply list_elem_of_singleton in Hc. right. by left. }
  destruct (scene_stage o raw prompt).1; [by apply not_elem_of_nil in Hc|].
  destruct (p && _); [|by apply not_elem_of_nil in Hc].
  apply list_elem_of_singleton in Hc. right. by right.
Qed.

(** X14: a rejected pair leaves the disk as it was. *)
Theorem load_and_process_frame_pair_rejected_writes_nothing
    raw rn rs rsn pats out s o p bw prompt thr w reason :
  (load_and_process_frame_pair raw rn rs rsn pats out s o p bw prompt thr w).1
  = Ok (false, reason) →
  fs (load_and_process_frame_pair raw rn rs rsn pats out s o p bw prompt thr w).2
  = fs w.
Proof.
  rewrite load_and_process_frame_pair_unfold. cbn zeta.
  destruct (solid_stage s rs bw) as [[|]|e]; try discriminate; [done|].
  destruct (scene_stage o raw prompt).1; [done|].
  destruct (label_stage p rs pats thr) as [label|e]; discriminate.
Qed.

(** X15: no pair is ever accepted: the evaluator returns a rejection or
    raises, and in every case the disk is as it was before the call. *)
Theorem load_and_process_frame_pair_never_accepts
    raw rn rs rsn pats out s o p bw prompt thr w :
  let run := load_and_process_frame_pair raw rn rs rsn pats out s o p bw prompt thr w in
  (∀ label, run.1 ≠ Ok (true, label)) ∧
  fs run.2 = fs w.
Proof.
  cbn zeta. rewrite load_and_process_frame_pair_unfold. cbn zeta.
  destruct (solid_stage s rs bw) as [[|]|e];
    [split; [discriminate|reflexivity]| |split; [discriminate|reflexivity]].
  destruct (scene_stage o raw prompt).1; [split; [discriminate|reflexivity]|].
  destruct (label_stage p rs pats thr) as [label|e];
    split; (discriminate || reflexivity).
Qed.

(** X16: the folder a passing pair is handed to [sort_into_folders] under
    is never the empty name; it is "Uncategorized", "No_Patterns_Available",
    "No_Pattern_Match" or the name of one of the references, and the call
    carries the two frame names of the pair; the evaluation then ends with
    [NameError]. *)
Theorem load_and_process_frame_pair_folder_origin
    raw rn rs rsn pats out s o p bw prompt thr w :
  let run := load_and_process_frame_pair raw rn rs rsn pats out s o p bw prompt thr w in
  ∃ new,
    calls run.2 = calls w ++ new ∧
    ∀ label a b,
      SortIntoFolders label a b ∈ new →
      a = rn ∧ b = rsn ∧ label ≠ EmptyString ∧
      (label ∈ own_labels ∨ label ∈ pats.*2) ∧
      run.1 = Raise (NameError "name 'Path' is not defined").
Proof.
  cbn zeta. rewrite load_and_process_frame_pair_unfold. cbn zeta.
  assert (Hnone : ∀ label a b,
            SortIntoFolders label a b ∉ stage_trace s o p raw rs pats bw prompt).
  { intros label a b Hin.
    apply stage_trace_stages in Hin as [Hin|[Hin|Hin]]; discriminate Hin. }
  destruct (solid_stage s rs bw) as [[|]|e];
    [eexists; split; [reflexivity|]; intros ??? Hin; by apply Hnone in Hin| |
     eexists; split; [reflexivity|]; intros ??? Hin; by apply Hnone in Hin].
  destruct (scene_stage o raw prompt).1;
    [eexists; split; [reflexivity|]; intros ??? Hin; by apply Hnone in Hin|].
  destruct (label_stage p rs pats thr) as [label|e] eqn:Hlabel;
    [|eexists; split; [reflexivity|]; intros ??? Hin; by apply Hnone in Hin].
  exists (stage_trace s o p raw rs pats bw prompt ++ [SortIntoFolders label rn rsn]).
  split; [cbn [add_calls fs calls snd]; by rewrite app_assoc|].
  intros label' a b Hin. apply elem_of_app in Hin as [Hin|Hin];
    [by apply Hnone in Hin|].
  apply list_elem_of_singleton in Hin. injection Hin as -> -> ->.
  split; [reflexivity|]. split; [reflexivity|].
  split; [exact (label_stage_nonempty _ _ _ _ _ Hlabel)|].
  split; [exact (label_stage_origin _ _ _ _ _ Hlabel)|reflexivity].
Qed.


End EvaluatorMore.

(** ** Output archiver: the unbound name *)

Section ArchiverMore.

(** X11: none of the three functions of the archiver gets past its first
    statement: each reads the unbound name [Path] and raises [NameError],
    for every input, before a directory or a file is made. *)
Theorem archiver_stops_at_unbound_name :
  (∀ out label raw rn rs rsn w,
     sort_into_folders out label raw rn rs rsn w
     = (Raise (NameError "name 'Path' is not defined"), w)) ∧
  (∀ out log w,
     create_text_file_with_removed_images out log w
     = (Raise (NameError "name 'Path' is not defined"), w)) ∧
  (∀ dir job w,
     create_zip_from_directory dir job w
     = (Raise (NameError "name 'Path' is not defined"), w)).
Proof.
  split; [|split].
  - apply sort_into_folders_raises.
  - apply create_text_file_with_removed_images_raises.
  - apply create_zip_from_directory_raises.
Qed.

End ArchiverMore.

(** ** Instances of the properties above on the example backend *)

Lemma is_mostly_black_or_white_raises_witness :
  ∃ e, is_mostly_black_or_white (B:=example_backend) (Some (Color [[]; []]))
         30 225 (60 # 100) = Raise e.
Proof.
  apply (is_mostly_black_or_white_raises (B:=example_backend)).
  exists [[]; []]. split; reflexivity.
Defined.

Lemma is_mostly_black_or_white_cutoff_bounds_witness :
  is_mostly_black_or_white (B:=example_backend) (Some (Gray [[128; 128]]))
    30 225 (0 # 1) = Ok true ∧
  is_mostly_black_or_white (B:=example_backend) (Some (Gray [[255; 255]]))
    30 225 (3 # 2) = Ok false.
Proof.
  split.
  - apply (is_mostly_black_or_white_cutoff_bounds (B:=example_backend));
      vm_compute; discriminate.
  - apply (is_mostly_black_or_white_cutoff_bounds (B:=example_backend));
      [vm_compute; discriminate|reflexivity].
Defined.

Lemma is_mostly_black_or_white_monotone_witness :
  is_mostly_black_or_white (B:=example_backend)
    (Some (Gray [[10; 20; 40; 128]])) 40 225 (40 # 100) = Ok true.
Proof.
  apply (is_mostly_black_or_white_monotone (B:=example_backend)
           (Gray [[10; 20; 40; 128]]) 30 40 225 225 (50 # 100) (40 # 100)).
  - vm_compute. discriminate.
  - lia.
  - lia.
  - vm_compute. discriminate.
  - reflexivity.
Defined.

Lemma is_mostly_black_or_white_uniform_witness :
  is_mostly_black_or_white (B:=example_backend)
    (Some (Color [[(0, 128, 255); (7, 128, 9)]])) 30 225 (60 # 100) = Ok false.
Proof.
  apply (is_mostly_black_or_white_uniform (B:=example_backend)
           (Color [[(0, 128, 255); (7, 128, 9)]]) 128 30 225 (60 # 100)).
  - vm_compute. discriminate.
  - repeat constructor.
  - reflexivity.
  - vm_compute. discriminate.
Defined.

Lemma modelObjectDetection_cleared_witness :
  (modelObjectDetection (B:=example_backend) (Some (Gray [[90]]))
     "Is it man-made?").1 = false.
Proof.
  apply (modelObjectDetection_cleared (B:=example_backend)).
  exists (Gray [[90]]), [90], "I would say ", "FALSE", ".".
  repeat split.
Defined.

Lemma load_and_process_frame_pair_reason_bounded_witness :
  (String.length "Rejected: Man-made objects detected (True, there is a fence....)"
   ≤ 91)%nat.
Proof.
  apply (load_and_process_frame_pair_reason_bounded (B:=example_backend)
           (Some (Gray [[1]])) "raw_frame_00000.png"
           (Some (Gray [[90]])) "realsense_frame_00000.png"
           [] ["out"] true true true (30, 225, 60 # 100) "Is it man-made?"
           (200 # 1) empty_world).
  vm_compute. reflexivity.
Defined.

Lemma good_matches_monotone_witness :
  (length (good_matches (10 # 1)
             [ {| queryIdx := 0; trainIdx := 0; distance := 3 # 1 |};
               {| queryIdx := 1; trainIdx := 1; distance := 40 # 1 |} ])
   ≤ length (good_matches (50 # 1)
               [ {| queryIdx := 0; trainIdx := 0; distance := 3 # 1 |};
                 {| queryIdx := 1; trainIdx := 1; distance := 40 # 1 |} ]))%nat.
Proof.
  apply (good_matches_monotone (10 # 1) (50 # 1)). vm_compute. discriminate.
Defined.

Lemma patternThresholding_drop_unmatched_witness :
  patternThresholding (B:=example_backend) (Some (Gray [[5; 7]]))
    ([(Some (Gray [[5; 100]]), "a.png")] ++ (None, "missing.png")
     :: [(Some (Gray [[50; 7]]), "b.png")]) (10 # 1)
  = patternThresholding (B:=example_backend) (Some (Gray [[5; 7]]))
      ([(Some (Gray [[5; 100]]), "a.png")]
       ++ [(Some (Gray [[50; 7]]), "b.png")]) (10 # 1).
Proof.
  apply (patternThresholding_drop_unmatched (B:=example_backend)).
  intros d _. reflexivity.
Defined.

Lemma patternThresholding_label_origin_witness :
  "a.png" = "No_Pattern_Match" ∨
  "a.png" ∈ [(Some (Gray [[5; 100]]), "a.png");
             (Some (Gray [[50; 7]]), "b.png")].*2.
Proof.
  apply (patternThresholding_label_origin (B:=example_backend)
           (Some (Gray [[5; 7]])) _ (10 # 1)).
  vm_compute. reflexivity.
Defined.

Lemma patternThresholding_order_irrelevant_witness :
  patternThresholding (B:=example_backend) (Some (Gray [[5; 7]]))
    [(Some (Gray [[5; 7]]), "both.png"); (Some (Gray [[5; 100]]), "one.png")]
    (10 # 1) = Ok (Some "both.png").
Proof.
  apply (patternThresholding_order_irrelevant (B:=example_backend)
           (Some (Gray [[5; 7]]))
           [(Some (Gray [[5; 100]]), "one.png"); (Some (Gray [[5; 7]]), "both.png")]
           _ (10 # 1) [5; 7]
           [(Some (Gray [[5; 100]]), "one.png")] (Some (Gray [[5; 7]])) "both.png"
           [] 2%nat).
  - reflexivity.
  - reflexivity.
  - reflexivity.
  - lia.
  - repeat constructor.
  - apply Permutation_swap.
Defined.

Lemma load_and_process_frame_pair_rejected_writes_nothing_witness :
  fs (load_and_process_frame_pair (B:=example_backend)
        (Some (Gray [[255]])) "raw_frame_00000.png"
        (Some (Gray [[255]])) "realsense_frame_00000.png"
        [] ["out"] true true true (30, 225, 60 # 100) "Is it man-made?"
        (200 # 1) example_world).2
  = example_disk.
Proof.
  apply (load_and_process_frame_pair_rejected_writes_nothing
           (B:=example_backend) _ _ _ _ _ _ _ _ _ _ _ _ example_world
           "Rejected: Mostly black or white").
  vm_compute. reflexivity.
Defined.


Lemma process_video_frames_no_empty_outcome_witness :
  (process_video_frames (B:=example_backend) "J" "uploads/raw.mp4"
     "uploads/realsense.mp4" [] no_thresholds ∅ example_world).1
  = Raise (NameError "name 'Path' is not defined").
Proof.
  exact (proj1 (process_video_frames_no_empty_outcome (B:=example_backend)
                  "J" "uploads/raw.mp4" "uploads/realsense.mp4" []
                  no_thresholds ∅ example_world)).
Defined.

(** The raw source has 8 frames and the realsense source 12: no stage is
    run, and 8 processed pairs are not what the run gives. *)
Lemma process_video_frames_walks_no_pair_witness :
  calls (process_video_frames (B:=example_backend) "J" "uploads/raw.mp4"
           "uploads/realsense.mp4" [] no_thresholds ∅ uneven_world).2 = [] ∧
  (process_video_frames (B:=example_backend) "J" "uploads/raw.mp4"
     "uploads/realsense.mp4" [] no_thresholds ∅ uneven_world).1
  ≠ Ok (8%nat, Some "Results_J.zip").
Proof.
  destruct (process_video_frames_walks_no_pair (B:=example_backend)
              "J" "uploads/raw.mp4" "uploads/realsense.mp4" []
              no_thresholds ∅ uneven_world) as [Hcalls Hnone].
  split; [exact Hcalls|apply Hnone].
Defined.

(** The only pair of the two sources is one the evaluator rejects, and the
    run leaves no log of it. *)
Lemma process_video_frames_writes_no_log_witness :
  (load_and_process_frame_pair (B:=example_backend)
     (Some white_frame) (raw_frame_name_of 0)
     (Some white_frame) (realsense_frame_name_of 0)
     [] (output_dir_of "J") true true true (30, 225, 60 # 100) "Analyze..."
     (200 # 1) example_world).1
  = Ok (false, "Rejected: Mostly black or white") ∧
  fs (process_video_frames (B:=example_backend) "J" "uploads/raw.mp4"
        "uploads/realsense.mp4" [] no_thresholds ∅ example_world).2
  !! ["pipeline_output"; "J"; "Accepted_images"; "removed_images_log.txt"]
  = None.
Proof.
  split; [vm_compute; reflexivity|].
  change ["pipeline_output"; "J"; "Accepted_images"; "removed_images_log.txt"]
    with (log_path_of "J").
  rewrite (process_video_frames_writes_no_log (B:=example_backend)
             "J" "uploads/raw.mp4" "uploads/realsense.mp4" []
             no_thresholds ∅ example_world).
  vm_compute. reflexivity.
Defined.

(** What an earlier run of job "J" accepted is still there after the run. *)
Lemma process_video_frames_keeps_output_dir_witness :
  fs (process_video_frames (B:=example_backend) "J" "uploads/raw.mp4"
        "uploads/realsense.mp4" [] no_thresholds ∅ earlier_run_world).2
  !! ["pipeline_output"; "J"; "Accepted_images"; "Uncategorized"; "raw";
      "raw_frame_00000.png"]
  = Some (Regular (ImageFile (Color [[(90, 90, 90)]]))).
Proof.
  rewrite (process_video_frames_keeps_output_dir (B:=example_backend)
             "J" "uploads/raw.mp4" "uploads/realsense.mp4" []
             no_thresholds ∅ earlier_run_world).
  vm_compute. reflexivity.
Defined.


(** The matcher finds the reference "a.png": it is the folder handed to
    [sort_into_folders]. *)
Lemma load_and_process_frame_pair_folder_origin_witness :
  "a.png" ≠ EmptyString ∧
  ("a.png" ∈ own_labels ∨ "a.png" ∈ [(Some (Gray [[90; 200]]), "a.png")].*2).
Proof.
  destruct (load_and_process_frame_pair_folder_origin (B:=example_backend)
              (Some (Gray [[90; 95]])) "raw_frame_00000.png"
              (Some (Gray [[90; 95]])) "realsense_frame_00000.png"
              [(Some (Gray [[90; 200]]), "a.png")]
              ["out"] true true true (30, 225, 60 # 100)
              "Is it man-made?" (10 # 1) empty_world)
    as (new & Hcalls & Horigin).
  destruct (Horigin "a.png" "raw_frame_00000.png" "realsense_frame_00000.png")
    as (_ & _ & Hname & Hfrom & _).
  - vm_compute in Hcalls. rewrite <- Hcalls.
    apply list_elem_of_In. simpl. do 3 right. left. reflexivity.
  - split; [exact Hname|exact Hfrom].
Defined.

